(** * The custom-object resource of the commercetools provider

    A shallow embedding of [commercetools/resource_custom_object.go]: the
    four lifecycle callbacks [resourceCustomObjectCreate],
    [resourceCustomObjectRead], [resourceCustomObjectUpdate] and
    [resourceCustomObjectDelete], and the value codec
    [_decodeCustomObjectValue].

    The callbacks mutate a [*schema.ResourceData], talk to the remote
    store through the client, write to the process log and take a
    per-resource mutex.  All of that is threaded through one explicit
    state, [World]; a callback is a function from worlds to an outcome and
    a new world.  A Go panic (nil dereference) is an outcome of its own. *)

From stdpp Require Import base strings list gmap pretty.
From Stdlib Require Import ZArith Ascii.

Local Open Scope Z_scope.
Local Open Scope string_scope.
Local Open Scope list_scope.

(** ** Go values *)

(** A Go [interface{}] as this file meets it: the documents that
    [encoding/json] decodes into an [interface{}] (nil, bool, float64,
    string, slice, map), the [int] handed to [d.Set("version", _)], and the
    nil map that [json.Unmarshal] leaves in a map variable on [null].  A
    float64 is kept as the literal it was decoded from; nothing here
    computes with it. *)
#[warnings="-register-all"]
Inductive any : Type :=
| ANil : any
| ABool (b : bool) : any
| AInt (n : Z) : any
| AFloat64 (lit : string) : any
| AString (s : string) : any
| ASlice (l : list any) : any
| AMap (m : list (string * any)) : any
| ANilMap : any.

(** [make(map[string]interface{})] *)
Definition make_map : list (string * any) := [].

(** [m[k] = v] on a [map[string]interface{}]: a later write to a key
    replaces the earlier one. *)
Fixpoint map_store (k : string) (v : any) (m : list (string * any))
  : list (string * any) :=
  match m with
  | [] => [(k, v)]
  | (k', v') :: m' =>
      if String.eqb k k' then (k, v) :: m' else (k', v') :: map_store k v m'
  end.

(** The Go [error] values that flow through the resource. *)
Inductive error : Type :=
| ErrorResponse (StatusCode : Z) (Message : string) : error
| OtherError (msg : string) : error
| wrapError (msg : string) (err : error) : error.

(** [err.Error()] *)
Definition Error (e : error) : string :=
  match e with
  | ErrorResponse _ m => m
  | OtherError m => m
  | wrapError m _ => m
  end.

(** [errors.Unwrap(err)] *)
Definition Unwrap (e : error) : option error :=
  match e with
  | wrapError _ e' => Some e'
  | _ => None
  end.

(** [fmt.Errorf("could not get custom object with container %s and key %s: %w", ...)] *)
Definition Errorf_could_not_get (container key : string) (err : error) : error :=
  wrapError ("could not get custom object with container " +:+ container
             +:+ " and key " +:+ key +:+ ": " +:+ Error err) err.

(** [fmt.Errorf("could not delete custom object with container %s and key %s: %w", ...)] *)
Definition Errorf_could_not_delete (container key : string) (err : error) : error :=
  wrapError ("could not delete custom object with container " +:+ container
             +:+ " and key " +:+ key +:+ ": " +:+ Error err) err.

(** ** The SDK's data types *)

(** [commercetools.CustomObject], the fields the resource reads. *)
Record CustomObject : Type := {
  ID : string;
  Container : string;
  Key : string;
  Value : any;
  Version : Z
}.

(** [commercetools.CustomObjectDraft].  [DraftVersion] is a Go [int]
    marshalled with [omitempty]: the zero value sends no version. *)
Record CustomObjectDraft : Type := {
  DraftContainer : string;
  DraftKey : string;
  DraftValue : any;
  DraftVersion : Z
}.

(** ** The value codec *)

Section Codec.

(** [encoding/json] as a black box: the syntax check and the generic
    decoding of a text into an [interface{}]; [None] on a syntax error. *)
Variable json_parse : string -> option any.

(** [json.Unmarshal([]byte(value), &data)] for [data] a
    [map[string]interface{}]: the variable after the call, as an
    [interface{}], and the error.  A syntax error leaves [data] alone; an
    object stores its members into [data]; [null] sets [data] to the nil
    map; any other document is an [UnmarshalTypeError] and leaves [data]
    alone. *)
Definition Unmarshal_map (value : string) (data : list (string * any))
  : any * option error :=
  match json_parse value with
  | None => (AMap data, Some (OtherError "invalid character"))
  | Some (AMap members) =>
      (AMap (fold_left (fun m kv => map_store (fst kv) (snd kv) m) members data),
       None)
  | Some ANil => (ANilMap, None)
  | Some _ =>
      (AMap data,
       Some (OtherError "json: cannot unmarshal into Go value of type map[string]interface {}"))
  end.

(** [_decodeCustomObjectValue]: the error of [json.Unmarshal] is dropped. *)
Definition _decodeCustomObjectValue (value : string) : any :=
  let data := make_map in
  let '(data, _) := Unmarshal_map value data in
  data.

End Codec.

(** ** The resource data *)

(** The attributes of the schema (lines 27-47): three strings and the
    computed integer [version]. *)
Record Attrs : Type := {
  attr_container : string;
  attr_key : string;
  attr_value : string;
  attr_version : Z
}.

(** What [d.Set] has written so far during the running callback. *)
Record Writes : Type := {
  set_container : option string;
  set_key : option string;
  set_value : option string;
  set_version : option Z
}.

Definition no_writes : Writes :=
  {| set_container := None; set_key := None; set_value := None; set_version := None |}.

(** [schema.ResourceData] of the plugin SDK, which keeps the attributes at
    several levels: [state] is the last known state, [planned] the values
    of the configuration and plan laid over it, [setWriter] what the
    callback itself has set.  [id] is the resource identifier. *)
Record ResourceData : Type := {
  state : Attrs;
  planned : Attrs;
  setWriter : Writes;
  id : string
}.

(** The attributes as the callback reads them: a value it has set before
    the planned one. *)
Definition merged (d : ResourceData) : Attrs :=
  {| attr_container := default (attr_container (planned d)) (set_container (setWriter d));
     attr_key := default (attr_key (planned d)) (set_key (setWriter d));
     attr_value := default (attr_value (planned d)) (set_value (setWriter d));
     attr_version := default (attr_version (planned d)) (set_version (setWriter d)) |}.

(** [d.Get(key)]: the value at the top level.  A key outside the schema
    reads as nil. *)
Definition Get (d : ResourceData) (key : string) : any :=
  if String.eqb key "container" then AString (attr_container (merged d))
  else if String.eqb key "key" then AString (attr_key (merged d))
  else if String.eqb key "value" then AString (attr_value (merged d))
  else if String.eqb key "version" then AInt (attr_version (merged d))
  else ANil.

(** [d.HasChange(key)]: the last known state against the planned value;
    the callback's own writes are not looked at. *)
Definition HasChange (d : ResourceData) (key : string) : bool :=
  if String.eqb key "container" then
    negb (String.eqb (attr_container (state d)) (attr_container (planned d)))
  else if String.eqb key "key" then
    negb (String.eqb (attr_key (state d)) (attr_key (planned d)))
  else if String.eqb key "value" then
    negb (String.eqb (attr_value (state d)) (attr_value (planned d)))
  else if String.eqb key "version" then
    negb (Z.eqb (attr_version (state d)) (attr_version (planned d)))
  else false.

Definition with_writes (d : ResourceData) (w : Writes) : ResourceData :=
  {| state := state d; planned := planned d; setWriter := w; id := id d |}.

(** The writer of a [schema.TypeString] attribute takes a Go string, and nil
    as the empty string; every other dynamic type is refused. *)
Definition as_TypeString (v : any) : option string :=
  match v with
  | AString s => Some s
  | ANil => Some ""
  | _ => None
  end.

(** The writer of a [schema.TypeInt] attribute, for the values this file
    passes it (a Go [int]). *)
Definition as_TypeInt (v : any) : option Z :=
  match v with
  | AInt n => Some n
  | _ => None
  end.

(** [d.Set(key, value)], named [Set_] because [Set] is a sort here.  The
    value is converted to the type the schema gives the key; when it does
    not convert, or the key is not in the schema, nothing is written and an
    error is returned.  The callbacks drop that error. *)
Definition Set_ (d : ResourceData) (key : string) (v : any)
  : ResourceData * option error :=
  let w := setWriter d in
  let refused := (d, Some (OtherError (key +:+ ": unconvertible type"))) in
  if String.eqb key "container" then
    match as_TypeString v with
    | Some s => (with_writes d {| set_container := Some s; set_key := set_key w;
                                  set_value := set_value w; set_version := set_version w |}, None)
    | None => refused
    end
  else if String.eqb key "key" then
    match as_TypeString v with
    | Some s => (with_writes d {| set_container := set_container w; set_key := Some s;
                                  set_value := set_value w; set_version := set_version w |}, None)
    | None => refused
    end
  else if String.eqb key "value" then
    match as_TypeString v with
    | Some s => (with_writes d {| set_container := set_container w; set_key := set_key w;
                                  set_value := Some s; set_version := set_version w |}, None)
    | None => refused
    end
  else if String.eqb key "version" then
    match as_TypeInt v with
    | Some n => (with_writes d {| set_container := set_container w; set_key := set_key w;
                                  set_value := set_value w; set_version := Some n |}, None)
    | None => refused
    end
  else (d, Some (OtherError "Invalid address to set")).

(** [d.SetId(v)] and [d.Id()] *)
Definition SetId (d : ResourceData) (v : string) : ResourceData :=
  {| state := state d; planned := planned d; setWriter := setWriter d; id := v |}.

Definition Id (d : ResourceData) : string := id d.

(** ** The client and the world *)

(** The three calls of the SDK client the resource uses, over a remote
    store [S].  Each returns the Go pair of a [CustomObject] pointer and an [error], and the
    store after the call. *)
Record Client (S : Type) : Type := {
  CustomObjectCreate :
    CustomObjectDraft -> S -> (option CustomObject * option error) * S;
  CustomObjectGetWithContainerAndKey :
    string -> string -> S -> (option CustomObject * option error) * S;
  CustomObjectDeleteWithContainerAndKey :
    string -> string -> Z -> bool -> S -> (option CustomObject * option error) * S
}.

Arguments CustomObjectCreate {S} _ _ _.
Arguments CustomObjectGetWithContainerAndKey {S} _ _ _ _.
Arguments CustomObjectDeleteWithContainerAndKey {S} _ _ _ _ _ _.

(** What a callback does that the outside can observe, in order. *)
Inductive Event : Type :=
| Log (msg : string)
| CallCreate (draft : CustomObjectDraft)
| CallGet (container key : string)
| CallDelete (container key : string) (version : Z) (force : bool)
| MutexLock (key : string)
| MutexUnlock (key : string).

(** Whether an event is a call to the remote store. *)
Definition is_remote_call (e : Event) : bool :=
  match e with
  | CallCreate _ | CallGet _ _ | CallDelete _ _ _ _ => true
  | _ => false
  end.

(** Everything a callback reads and changes: the resource data [d], the
    remote store behind the client, the mutexes of [ctMutexKV] that are
    held, and the events so far. *)
Record World (S : Type) : Type := {
  d : ResourceData;
  remote : S;
  held : gset string;
  events : list Event
}.

Arguments d {S} _.
Arguments remote {S} _.
Arguments held {S} _.
Arguments events {S} _.

(** How a callback ends: it returns, it panics, or it waits for a mutex
    that is held. *)
Inductive Outcome (A : Type) : Type :=
| Ret (a : A)
| Panic (msg : string)
| Blocked.

Arguments Ret {A} _.
Arguments Panic {A} _.
Arguments Blocked {A}.

Definition M (S A : Type) : Type := World S -> Outcome A * World S.

Definition ret {S A : Type} (a : A) : M S A := fun w => (Ret a, w).

Definition bind {S A B : Type} (c : M S A) (k : A -> M S B) : M S B :=
  fun w =>
    match c w with
    | (Ret a, w') => k a w'
    | (Panic msg, w') => (Panic msg, w')
    | (Blocked, w') => (Blocked, w')
    end.

Notation "x <- c ;; k" := (bind c (fun x => k))
  (at level 20, c at level 99, k at level 200, only parsing).
Notation "' pat <- c ;; k" := (bind c (fun x => match x with pat => k end))
  (at level 20, pat pattern, c at level 99, k at level 200, only parsing).
Notation "c ;; k" := (bind c (fun _ => k))
  (at level 100, k at level 200, right associativity, only parsing).

(** [defer f(); body]: [f] runs when [body] has returned or panicked, and
    the outcome of [body] stands. *)
Definition defer {S A : Type} (deferred : M S unit) (body : M S A) : M S A :=
  fun w =>
    match body w with
    | (Blocked, w') => (Blocked, w')
    | (r, w') => (r, snd (deferred w'))
    end.

Definition nl : string := String (ascii_of_nat 10) "".

(** The message of the runtime panic on reading through a nil pointer. *)
Definition nil_dereference : string :=
  "invalid memory address or nil pointer dereference".

(** ** The callbacks *)

Section Resource.

Context {S : Type}.

(** [getClient(m)] *)
Variable client : Client S.

(** The decoder of [encoding/json], see [Unmarshal_map]. *)
Variable json_parse : string -> option any.

(** [stringFormatObject], defined elsewhere in the package; its result is
    only logged. *)
Variable stringFormatObject : CustomObject -> string.

Definition emit (e : Event) (w : World S) : World S :=
  {| d := d w; remote := remote w; held := held w; events := events w ++ [e] |}.

Definition with_d (w : World S) (d' : ResourceData) : World S :=
  {| d := d'; remote := remote w; held := held w; events := events w |}.

Definition with_remote (w : World S) (r : S) : World S :=
  {| d := d w; remote := r; held := held w; events := events w |}.

Definition with_held (w : World S) (h : gset string) : World S :=
  {| d := d w; remote := remote w; held := h; events := events w |}.

(** [log.Printf] and [log.Print] *)
Definition log_Print (msg : string) : M S unit :=
  fun w => (Ret tt, emit (Log msg) w).

(** [d.Get(key).(string)] *)
Definition d_Get_string (key : string) : M S string :=
  fun w =>
    match Get (d w) key with
    | AString s => (Ret s, w)
    | _ => (Panic "interface conversion: interface {} is not string", w)
    end.

(** [d.Get(key).(int)] *)
Definition d_Get_int (key : string) : M S Z :=
  fun w =>
    match Get (d w) key with
    | AInt n => (Ret n, w)
    | _ => (Panic "interface conversion: interface {} is not int", w)
    end.

Definition d_HasChange (key : string) : M S bool :=
  fun w => (Ret (HasChange (d w) key), w).

Definition d_Set (key : string) (v : any) : M S (option error) :=
  fun w => let '(d', err) := Set_ (d w) key v in (Ret err, with_d w d').

Definition d_SetId (v : string) : M S unit :=
  fun w => (Ret tt, with_d w (SetId (d w) v)).

Definition d_Id : M S string :=
  fun w => (Ret (Id (d w)), w).

(** Reading a field through a [*CustomObject]: a nil pointer panics. *)
Definition deref (p : option CustomObject) : M S CustomObject :=
  fun w =>
    match p with
    | Some o => (Ret o, w)
    | None => (Panic "invalid memory address or nil pointer dereference", w)
    end.

Definition client_CustomObjectCreate (draft : CustomObjectDraft)
  : M S (option CustomObject * option error) :=
  fun w =>
    let '(r, s) := CustomObjectCreate client draft (remote w) in
    (Ret r, with_remote (emit (CallCreate draft) w) s).

Definition client_CustomObjectGetWithContainerAndKey (container key : string)
  : M S (option CustomObject * option error) :=
  fun w =>
    let '(r, s) := CustomObjectGetWithContainerAndKey client container key (remote w) in
    (Ret r, with_remote (emit (CallGet container key) w) s).

Definition client_CustomObjectDeleteWithContainerAndKey
    (container key : string) (version : Z) (force : bool)
  : M S (option CustomObject * option error) :=
  fun w =>
    let '(r, s) :=
      CustomObjectDeleteWithContainerAndKey client container key version force (remote w) in
    (Ret r, with_remote (emit (CallDelete container key version force) w) s).

(** Modelled from the spec: [ctMutexKV], the process-wide table of one
    mutex per resource identifier, is declared outside this file.
    [Lock] waits while the mutex of the key is held and then holds it;
    [Unlock] frees it. *)
Definition ctMutexKV_Lock (key : string) : M S unit :=
  fun w =>
    if decide (key ∈ held w) then (Blocked, w)
    else (Ret tt, with_held (emit (MutexLock key) w) ({[key]} ∪ held w)).

Definition ctMutexKV_Unlock (key : string) : M S unit :=
  fun w => (Ret tt, with_held (emit (MutexUnlock key) w) (held w ∖ {[key]})).

(** Lines 51-69. *)
Definition resourceCustomObjectCreate : M S (option error) :=
  raw <- d_Get_string "value" ;;
  let value := _decodeCustomObjectValue json_parse raw in
  container <- d_Get_string "container" ;;
  key <- d_Get_string "key" ;;
  let draft := {| DraftContainer := container; DraftKey := key;
                  DraftValue := value; DraftVersion := 0 |} in
  '(customObject, err) <- client_CustomObjectCreate draft ;;
  match err with
  | Some e => ret (Some e)
  | None =>
      o <- deref customObject ;;
      d_SetId (ID o) ;;
      _ <- d_Set "version" (AInt (Version o)) ;;
      ret None
  end.

(** Lines 71-100. *)
Definition resourceCustomObjectRead : M S (option error) :=
  container <- d_Get_string "container" ;;
  key <- d_Get_string "key" ;;
  log_Print ("[DEBUG] Reading custom object from commercetools with following values"
             +:+ nl +:+ " Container: " +:+ container +:+ " " +:+ nl
             +:+ " Key: " +:+ key) ;;
  '(customObject, err) <- client_CustomObjectGetWithContainerAndKey container key ;;
  match err with
  | Some e =>
      match e with
      | ErrorResponse StatusCode _ =>
          if Z.eqb StatusCode 404 then d_SetId "" ;; ret None
          else ret (Some e)
      | _ => ret (Some e)
      end
  | None =>
      match customObject with
      | None =>
          log_Print "[DEBUG] No custom object found" ;;
          d_SetId "" ;;
          ret None
      | Some o =>
          log_Print "[DEBUG] Found following custom object:" ;;
          log_Print (stringFormatObject o) ;;
          _ <- d_Set "container" (AString (Container o)) ;;
          _ <- d_Set "key" (AString (Key o)) ;;
          _ <- d_Set "value" (Value o) ;;
          _ <- d_Set "version" (AInt (Version o)) ;;
          ret None
      end
  end.

(** Lines 102-156. *)
Definition resourceCustomObjectUpdate : M S (option error) :=
  raw <- d_Get_string "value" ;;
  let value := _decodeCustomObjectValue json_parse raw in
  containerChanged <- d_HasChange "container" ;;
  keyChanged <- d_HasChange "key" ;;
  if containerChanged || keyChanged then
    container <- d_Get_string "container" ;;
    key <- d_Get_string "key" ;;
    let draft := {| DraftContainer := container; DraftKey := key;
                    DraftValue := value; DraftVersion := 0 |} in
    '(customObject, err) <- client_CustomObjectCreate draft ;;
    match err with
    | Some e => ret (Some e)
    | None =>
        o <- deref customObject ;;
        d_SetId (ID o) ;;
        _ <- d_Set "version" (AInt (Version o)) ;;
        container <- d_Get_string "container" ;;
        key <- d_Get_string "key" ;;
        version <- d_Get_int "version" ;;
        '(_, err) <- client_CustomObjectDeleteWithContainerAndKey
                       container key version true ;;
        match err with
        | Some _ => log_Print "Failed to remove old custom object" ;; ret None
        | None => ret None
        end
    end
  else
    container <- d_Get_string "container" ;;
    key <- d_Get_string "key" ;;
    version <- d_Get_int "version" ;;
    let draft := {| DraftContainer := container; DraftKey := key;
                    DraftValue := value; DraftVersion := version |} in
    '(customObject, err) <- client_CustomObjectCreate draft ;;
    match err with
    | Some e => ret (Some e)
    | None =>
        o <- deref customObject ;;
        d_SetId (ID o) ;;
        _ <- d_Set "version" (AInt (Version o)) ;;
        ret None
    end.

(** Lines 158-177. *)
Definition resourceCustomObjectDelete : M S (option error) :=
  container <- d_Get_string "container" ;;
  key <- d_Get_string "key" ;;
  lockKey <- d_Id ;;
  ctMutexKV_Lock lockKey ;;
  unlockKey <- d_Id ;;
  defer (ctMutexKV_Unlock unlockKey)
    ('(customObject, err) <- client_CustomObjectGetWithContainerAndKey container key ;;
     match err with
     | Some e => ret (Some (Errorf_could_not_get container key e))
     | None =>
         o <- deref customObject ;;
         '(_, err) <- client_CustomObjectDeleteWithContainerAndKey
                        container key (Version o) false ;;
         match err with
         | Some e => ret (Some (Errorf_could_not_delete container key e))
         | None => ret None
         end
     end).

End Resource.

(** ** A JSON decoder to run the definitions on concrete texts

    The callbacks are stated over any decoder [json_parse].  [JSON.decode]
    is one that computes: a recursive-descent reader of the JSON grammar
    into the [interface{}] documents of [encoding/json]. *)

Module JSON.

Local Open Scope N_scope.

Definition code (c : ascii) : N := N_of_ascii c.

Definition is_ws (c : ascii) : bool :=
  let n := code c in (n =? 32) || (n =? 9) || (n =? 10) || (n =? 13).

Definition is_digit (c : ascii) : bool :=
  let n := code c in (48 <=? n) && (n <=? 57).

Definition is_digit19 (c : ascii) : bool :=
  let n := code c in (49 <=? n) && (n <=? 57).

Definition hex_value (c : ascii) : option N :=
  let n := code c in
  if (48 <=? n) && (n <=? 57) then Some (n - 48)
  else if (65 <=? n) && (n <=? 70) then Some (n - 55)
  else if (97 <=? n) && (n <=? 102) then Some (n - 87)
  else None.

Fixpoint skip_ws (s : list ascii) : list ascii :=
  match s with
  | c :: r => if is_ws c then skip_ws r else s
  | [] => []
  end.

Fixpoint span_digits (s : list ascii) : list ascii * list ascii :=
  match s with
  | c :: r =>
      if is_digit c then let '(ds, r') := span_digits r in (c :: ds, r')
      else ([], s)
  | [] => ([], [])
  end.

(** [strip_prefix p s]: the rest of [s] after the literal [p]. *)
Fixpoint strip_prefix (p s : list ascii) : option (list ascii) :=
  match p, s with
  | [], _ => Some s
  | a :: p', b :: s' => if Ascii.eqb a b then strip_prefix p' s' else None
  | _ :: _, [] => None
  end.

Definition chars (s : string) : list ascii := String.list_ascii_of_string s.

(** A number: an optional minus, then zero or a digit string that does
    not start with zero, then an optional fraction, then an optional
    exponent.  Returns the literal and the rest. *)
Definition lex_number (s : list ascii) : option (list ascii * list ascii) :=
  let '(sign, s1) :=
    match s with
    | c :: r => if code c =? 45 then ([c], r) else ([], s)
    | [] => ([], s)
    end in
  match s1 with
  | [] => None
  | c :: r =>
      let int_part :=
        if code c =? 48 then Some ([c], r)
        else if is_digit19 c then let '(ds, r') := span_digits r in Some (c :: ds, r')
        else None in
      match int_part with
      | None => None
      | Some (ip, s2) =>
          let frac_part :=
            match s2 with
            | dot :: r2 =>
                if code dot =? 46 then
                  match span_digits r2 with
                  | ([], _) => None
                  | (ds, r3) => Some (dot :: ds, r3)
                  end
                else Some ([], s2)
            | [] => Some ([], s2)
            end in
          match frac_part with
          | None => None
          | Some (fp, s3) =>
              let exp_part :=
                match s3 with
                | e :: r3 =>
                    if (code e =? 101) || (code e =? 69) then
                      let '(sg, r4) :=
                        match r3 with
                        | c' :: r' =>
                            if (code c' =? 43) || (code c' =? 45) then ([c'], r')
                            else ([], r3)
                        | [] => ([], r3)
                        end in
                      match span_digits r4 with
                      | ([], _) => None
                      | (ds, r5) => Some ((e :: sg ++ ds)%list, r5)
                      end
                    else Some ([], s3)
                | [] => Some ([], s3)
                end in
              match exp_part with
              | None => None
              | Some (ep, s4) => Some ((sign ++ ip ++ fp ++ ep)%list, s4)
              end
          end
      end
  end.

(** UTF-8 bytes of a code point. *)
Definition utf8 (cp : N) : list ascii :=
  if cp <? 128 then [ascii_of_N cp]
  else if cp <? 2048 then
    [ascii_of_N (192 + cp / 64); ascii_of_N (128 + cp mod 64)]
  else if cp <? 65536 then
    [ascii_of_N (224 + cp / 4096); ascii_of_N (128 + (cp / 64) mod 64);
     ascii_of_N (128 + cp mod 64)]
  else
    [ascii_of_N (240 + cp / 262144); ascii_of_N (128 + (cp / 4096) mod 64);
     ascii_of_N (128 + (cp / 64) mod 64); ascii_of_N (128 + cp mod 64)].

(** Four hexadecimal digits. *)
Definition hex4 (s : list ascii) : option (N * list ascii) :=
  match s with
  | a :: b :: c :: e :: r =>
      match hex_value a, hex_value b, hex_value c, hex_value e with
      | Some x, Some y, Some z, Some t => Some (((x * 16 + y) * 16 + z) * 16 + t, r)
      | _, _, _, _ => None
      end
  | _ => None
  end.

(** The character of a one-letter escape. *)
Definition simple_escape (c : ascii) : option ascii :=
  let n := code c in
  if (n =? 34) || (n =? 92) || (n =? 47) then Some c
  else if n =? 98 then Some (ascii_of_N 8)
  else if n =? 102 then Some (ascii_of_N 12)
  else if n =? 110 then Some (ascii_of_N 10)
  else if n =? 114 then Some (ascii_of_N 13)
  else if n =? 116 then Some (ascii_of_N 9)
  else None.

(** The body of a string after its opening quote, up to and including
    the closing quote.  A [\u] escape of a surrogate pair is joined; a
    lone surrogate becomes U+FFFD. *)
Fixpoint lex_string (fuel : nat) (s : list ascii) (acc : list ascii)
  : option (list ascii * list ascii) :=
  match fuel with
  | O => None
  | Datatypes.S fuel =>
      match s with
      | [] => None
      | c :: r =>
          if code c =? 34 then Some (rev acc, r)
          else if code c <? 32 then None
          else if code c =? 92 then
            match r with
            | [] => None
            | e :: r1 =>
                if code e =? 117 then
                  match hex4 r1 with
                  | None => None
                  | Some (cp, r2) =>
                      if (55296 <=? cp) && (cp <? 56320) then
                        match strip_prefix (chars "\u") r2 with
                        | Some r3 =>
                            match hex4 r3 with
                            | Some (lo, r4) =>
                                if (56320 <=? lo) && (lo <? 57344) then
                                  lex_string fuel r4
                                    (rev (utf8 (65536 + (cp - 55296) * 1024 + (lo - 56320)))
                                       ++ acc)%list
                                else lex_string fuel r2 (rev (utf8 65533) ++ acc)%list
                            | None => lex_string fuel r2 (rev (utf8 65533) ++ acc)%list
                            end
                        | None => lex_string fuel r2 (rev (utf8 65533) ++ acc)%list
                        end
                      else if (56320 <=? cp) && (cp <? 57344) then
                        lex_string fuel r2 (rev (utf8 65533) ++ acc)%list
                      else lex_string fuel r2 (rev (utf8 cp) ++ acc)%list
                  end
                else
                  match simple_escape e with
                  | Some x => lex_string fuel r1 (x :: acc)
                  | None => None
                  end
            end
          else lex_string fuel r (c :: acc)
      end
  end.

Definition text (l : list ascii) : string := String.string_of_list_ascii l.

(** One value, the members of an array after its first bracket, and the
    members of an object after its first brace. *)
Fixpoint parse_value (fuel : nat) (s : list ascii) : option (any * list ascii) :=
  match fuel with
  | O => None
  | Datatypes.S fuel =>
      match skip_ws s with
      | [] => None
      | c :: r =>
          if code c =? 34 then
            match lex_string (length r) r [] with
            | Some (str, r') => Some (AString (text str), r')
            | None => None
            end
          else if code c =? 91 then
            match skip_ws r with
            | c' :: r' =>
                if code c' =? 93 then Some (ASlice [], r')
                else parse_elements fuel (c' :: r') []
            | [] => None
            end
          else if code c =? 123 then
            match skip_ws r with
            | c' :: r' =>
                if code c' =? 125 then Some (AMap [], r')
                else parse_members fuel (c' :: r') []
            | [] => None
            end
          else if (code c =? 45) || is_digit c then
            match lex_number (c :: r) with
            | Some (lit, r') => Some (AFloat64 (text lit), r')
            | None => None
            end
          else
            match strip_prefix (chars "null") (c :: r) with
            | Some r' => Some (ANil, r')
            | None =>
                match strip_prefix (chars "true") (c :: r) with
                | Some r' => Some (ABool true, r')
                | None =>
                    match strip_prefix (chars "false") (c :: r) with
                    | Some r' => Some (ABool false, r')
                    | None => None
                    end
                end
            end
      end
  end
with parse_elements (fuel : nat) (s : list ascii) (acc : list any)
  : option (any * list ascii) :=
  match fuel with
  | O => None
  | Datatypes.S fuel =>
      match parse_value fuel s with
      | None => None
      | Some (v, r) =>
          match skip_ws r with
          | c :: r' =>
              if code c =? 44 then parse_elements fuel r' (v :: acc)
              else if code c =? 93 then Some (ASlice (rev (v :: acc)), r')
              else None
          | [] => None
          end
      end
  end
with parse_members (fuel : nat) (s : list ascii) (acc : list (string * any))
  : option (any * list ascii) :=
  match fuel with
  | O => None
  | Datatypes.S fuel =>
      match skip_ws s with
      | q :: r0 =>
          if code q =? 34 then
            match lex_string (length r0) r0 [] with
            | None => None
            | Some (k, r1) =>
                match skip_ws r1 with
                | colon :: r2 =>
                    if code colon =? 58 then
                      match parse_value fuel r2 with
                      | None => None
                      | Some (v, r3) =>
                          let acc' := map_store (text k) v acc in
                          match skip_ws r3 with
                          | c :: r4 =>
                              if code c =? 44 then parse_members fuel r4 acc'
                              else if code c =? 125 then Some (AMap acc', r4)
                              else None
                          | [] => None
                          end
                      end
                    else None
                | [] => None
                end
            end
          else None
      | [] => None
      end
  end.

(** A whole text: one value between optional white space. *)
Definition decode (s : string) : option any :=
  let l := chars s in
  match parse_value (2 * length l + 2) l with
  | Some (v, r) => match skip_ws r with [] => Some v | _ :: _ => None end
  | None => None
  end.

End JSON.


(** ** A remote store to run the callbacks against *)

Module MemStore.

(** Modelled from the spec: the remote store itself is outside this
    repository; sections 3 and 4.2 of the specification describe it.  At
    most one object lives at a (container, key) pair; the store assigns the
    identifier and the version.  [faults] schedules transport failures:
    each call takes the head, and fails with it when it is an error.
    Values reach the store, and objects reach the client, as JSON: see
    [wire] and [answer]. *)
Record Store : Type := {
  objects : gmap (string * string) CustomObject;
  next_id : nat;
  faults : list (option error)
}.

Definition next_fault (s : Store) : option error * Store :=
  match faults s with
  | f :: fs => (f, {| objects := objects s; next_id := next_id s; faults := fs |})
  | [] => (None, s)
  end.

Definition conflict : error := ErrorResponse 409 "conflict".
Definition not_found : error := ErrorResponse 404 "not found".

(** A document after it has crossed the wire as JSON and been decoded
    into an [interface{}]: a nil map is sent as null and comes back as
    nil, an integer comes back as a float64, and the members of maps and
    slices fare alike. *)
Fixpoint wire (v : any) : any :=
  match v with
  | ANilMap => ANil
  | AInt n => AFloat64 (pretty n)
  | ASlice l => ASlice (List.map wire l)
  | AMap m => AMap (List.map (fun '(k, x) => (k, wire x)) m)
  | _ => v
  end.

(** The range of a Go [int], 64 bits wide. *)
Definition min_int : Z := -9223372036854775808.
Definition max_int : Z := 9223372036854775807.

Definition fits_int (n : Z) : bool := Z.leb min_int n && Z.leb n max_int.

Definition decode_error : error :=
  OtherError "json: cannot unmarshal number into Go struct field CustomObject.version of type int".

(** What the client hands back for an object the store answers with: the
    response is decoded into a [CustomObject], whose version is a Go
    [int]; a version outside its range is a decoding error. *)
Definition answer (o : CustomObject) : option CustomObject * option error :=
  if fits_int (Version o) then (Some o, None) else (None, Some decode_error).

(** Modelled from the spec: [CreateOrUpdate].  Without a version a new
    object is created at version 1, and the call fails when one lives at the
    identity already; with a version the live object is updated when the
    version matches, and its version grows by one.  The store keeps the
    value as it arrived over the wire. *)
Definition create (draft : CustomObjectDraft) (s0 : Store)
  : (option CustomObject * option error) * Store :=
  let '(fault, s) := next_fault s0 in
  match fault with
  | Some e => ((None, Some e), s)
  | None =>
      let ident := (DraftContainer draft, DraftKey draft) in
      match objects s !! ident with
      | None =>
          if Z.eqb (DraftVersion draft) 0 then
            let o := {| ID := "obj-" +:+ pretty (next_id s);
                        Container := DraftContainer draft; Key := DraftKey draft;
                        Value := wire (DraftValue draft); Version := 1 |} in
            (answer o,
             {| objects := <[ident := o]> (objects s);
                next_id := Datatypes.S (next_id s); faults := faults s |})
          else ((None, Some not_found), s)
      | Some live =>
          if Z.eqb (DraftVersion draft) 0 then ((None, Some conflict), s)
          else if Z.eqb (DraftVersion draft) (Version live) then
            let o := {| ID := ID live; Container := Container live; Key := Key live;
                        Value := wire (DraftValue draft); Version := Version live + 1 |} in
            (answer o,
             {| objects := <[ident := o]> (objects s);
                next_id := next_id s; faults := faults s |})
          else ((None, Some conflict), s)
      end
  end.

(** Modelled from the spec: [FetchByIdentity]. *)
Definition fetch (container key : string) (s0 : Store)
  : (option CustomObject * option error) * Store :=
  let '(fault, s) := next_fault s0 in
  match fault with
  | Some e => ((None, Some e), s)
  | None =>
      match objects s !! (container, key) with
      | Some live => (answer live, s)
      | None => ((None, Some not_found), s)
      end
  end.

(** Modelled from the spec: [DeleteByIdentity].  With [force] the version
    is not compared. *)
Definition remove (container key : string) (version : Z) (force : bool) (s0 : Store)
  : (option CustomObject * option error) * Store :=
  let '(fault, s) := next_fault s0 in
  match fault with
  | Some e => ((None, Some e), s)
  | None =>
      match objects s !! (container, key) with
      | None => ((None, Some not_found), s)
      | Some live =>
          if force || Z.eqb version (Version live) then
            (answer live,
             {| objects := delete (container, key) (objects s);
                next_id := next_id s; faults := faults s |})
          else ((None, Some conflict), s)
      end
  end.

Definition client : Client Store :=
  {| CustomObjectCreate := create;
     CustomObjectGetWithContainerAndKey := fetch;
     CustomObjectDeleteWithContainerAndKey := remove |}.

(** A world around a store: nothing logged, no mutex held. *)
Definition world (d0 : ResourceData) (s : Store) : World Store :=
  {| d := d0; remote := s; held := ∅; events := [] |}.

(** A resource as the host hands it to a callback: the last known state,
    the planned values, and the identifier. *)
Definition resource (old new : Attrs) (rid : string) : ResourceData :=
  {| state := old; planned := new; setWriter := no_writes; id := rid |}.

End MemStore.

(** ** Concrete resources and stores *)

Module Scenario.

Import MemStore.

Definition quote : string := String (ascii_of_nat 34) "".

(** The text of the JSON object with the one member a = 1, and of the
    same object with a = 2. *)
Definition text_a1 : string := "{" +:+ quote +:+ "a" +:+ quote +:+ ":1}".
Definition text_a2 : string := "{" +:+ quote +:+ "a" +:+ quote +:+ ":2}".

Definition doc_a1 : any := AMap [("a", AFloat64 "1")].
Definition doc_a2 : any := AMap [("a", AFloat64 "2")].

(** [stringFormatObject] for the runs; its result is only logged. *)
Definition formatObject (o : CustomObject) : string :=
  Container o +:+ "/" +:+ Key o.

Definition attrs (container key value : string) (version : Z) : Attrs :=
  {| attr_container := container; attr_key := key;
     attr_value := value; attr_version := version |}.

(** The object (c1, a) at version 3, and a store that holds it. *)
Definition live_c1_a : CustomObject :=
  {| ID := "obj-1"; Container := "c1"; Key := "a"; Value := doc_a1; Version := 3 |}.

Definition store_c1_a (fs : list (option error)) : Store :=
  {| objects := {[ ("c1", "a") := live_c1_a ]}; next_id := 2; faults := fs |}.

Definition store_empty : Store :=
  {| objects := ∅; next_id := 1; faults := [] |}.

(** The resource of (c1, a) with nothing planned to change. *)
Definition settled : ResourceData :=
  resource (attrs "c1" "a" text_a1 3) (attrs "c1" "a" text_a1 3) "obj-1".

(** The resource of (c1, a) with the key planned to become b. *)
Definition renamed : ResourceData :=
  resource (attrs "c1" "a" text_a1 3) (attrs "c1" "b" text_a1 3) "obj-1".

(** An Update that renames the key from a to b, every remote call
    answering. *)
Definition rename_world : World Store := world renamed (store_c1_a []).

(** The same Update when the second remote call, the delete, fails in
    transport. *)
Definition connection_reset : error := OtherError "connection reset by peer".

Definition rename_world_delete_fails : World Store :=
  world renamed (store_c1_a [None; Some connection_reset]).

(** The object the store creates at (c1, b), and the store after that
    create and after the failed delete. *)
Definition created_c1_b : CustomObject :=
  {| ID := "obj-2"; Container := "c1"; Key := "b"; Value := doc_a1; Version := 1 |}.

Definition store_after_create : Store :=
  {| objects := <[ ("c1", "b") := created_c1_b ]> {[ ("c1", "a") := live_c1_a ]};
     next_id := 3; faults := [Some connection_reset] |}.

(** A Read of (c1, a) after the object was changed upstream to a = 2 at
    version 4. *)
Definition changed_c1_a : CustomObject :=
  {| ID := "obj-1"; Container := "c1"; Key := "a"; Value := doc_a2; Version := 4 |}.

Definition store_changed : Store :=
  {| objects := {[ ("c1", "a") := changed_c1_a ]}; next_id := 2; faults := [] |}.

Definition read_world : World Store := world settled store_changed.

(** A Read and a Delete of (c1, a) when no such object lives in the
    store. *)
Definition absent_world : World Store := world settled store_empty.

(** A Delete of the live (c1, a). *)
Definition delete_world : World Store := world settled (store_c1_a []).

(** A client whose fetch answers with neither an object nor an error. *)
Definition nil_client : Client unit :=
  {| CustomObjectCreate := fun _ s => ((None, Some connection_reset), s);
     CustomObjectGetWithContainerAndKey := fun _ _ s => ((None, None), s);
     CustomObjectDeleteWithContainerAndKey := fun _ _ _ _ s => ((None, None), s) |}.

Definition nil_world : World unit :=
  {| d := settled; remote := tt; held := ∅; events := [] |}.

(** A resource whose value text is given, to be created at (c1, a). *)
Definition fresh (value : string) : World Store :=
  world (resource (attrs "" "" "" 0) (attrs "c1" "a" value 0) "") store_empty.

End Scenario.

(** Further resources and stores for the runs. *)
Module MoreScenarios.

Import MemStore Scenario.

(** The resource of (c1, a) with only the value planned to change. *)
Definition revalued : ResourceData :=
  resource (attrs "c1" "a" text_a1 3) (attrs "c1" "a" text_a2 3) "obj-1".

Definition revalue_world : World Store := world revalued (store_c1_a []).

(** The rename when the create call fails in transport. *)
Definition rename_world_create_fails : World Store :=
  world renamed (store_c1_a [Some connection_reset]).

(** The same plan held with a stale version 2, the object living at
    version 3. *)
Definition stale : ResourceData :=
  resource (attrs "c1" "a" text_a1 2) (attrs "c1" "a" text_a2 2) "obj-1".

(** The object (c1, a) after the value was updated in place. *)
Definition updated_c1_a : CustomObject :=
  {| ID := "obj-1"; Container := "c1"; Key := "a"; Value := doc_a2; Version := 4 |}.

(** A Delete of the live (c1, a) whose delete call, the second remote
    call, fails in transport. *)
Definition delete_world_delete_fails : World Store :=
  world settled (store_c1_a [None; Some connection_reset]).

(** An Update of the live (c1, a) whose planned value text is an
    unclosed brace. *)
Definition malformed_update_world : World Store :=
  world (resource (attrs "c1" "a" text_a1 3) (attrs "c1" "a" "{" 3) "obj-1")
        (store_c1_a []).

(** A resource declared at (c1, a) with the value text null. *)
Definition declared_null : ResourceData :=
  resource (attrs "" "" "" 0) (attrs "c1" "a" "null" 0) "".

(** A resource declared at (c1, a), not created yet. *)
Definition declared : ResourceData :=
  resource (attrs "" "" "" 0) (attrs "c1" "a" text_a1 0) "".

End MoreScenarios.

(** ** Properties of the callbacks *)

(** The spec's [NotFound]: an [ErrorResponse] with status 404. *)
Definition is_NotFound (e : error) : bool :=
  match e with
  | ErrorResponse StatusCode _ => Z.eqb StatusCode 404
  | _ => false
  end.


(** Whether the container or the key differs from the last known state:
    the test of line 107. *)
Definition identity_changed (d : ResourceData) : bool :=
  HasChange d "container" || HasChange d "key".

(** The draft that Create and Update hand to the client, for the version
    they put in it. *)
Definition draft_of (json_parse : string -> option any) (version : Z) (d : ResourceData)
  : CustomObjectDraft :=
  {| DraftContainer := attr_container (merged d);
     DraftKey := attr_key (merged d);
     DraftValue := _decodeCustomObjectValue json_parse (attr_value (merged d));
     DraftVersion := version |}.

(** Whether an event takes or frees a mutex of [ctMutexKV]. *)
Definition is_mutex_event (e : Event) : bool :=
  match e with
  | MutexLock _ | MutexUnlock _ => true
  | _ => false
  end.

(** [schema.ImportStatePassthrough] (line 25): the imported resource
    carries the identifier it was imported by and no attribute, so every
    string reads as empty and the version as zero. *)
Definition ImportStatePassthrough (rid : string) : ResourceData :=
  let none := {| attr_container := ""; attr_key := ""; attr_value := "";
                 attr_version := 0 |} in
  {| state := none; planned := none; setWriter := no_writes; id := rid |}.

(** The version Update puts in its draft: none when the identity changes
    (line 111), the local one otherwise (line 144). *)
Definition update_draft_version (d : ResourceData) : Z :=
  if identity_changed d then 0 else attr_version (merged d).

Ltac unfold_callback :=
  unfold resourceCustomObjectCreate, resourceCustomObjectRead,
    resourceCustomObjectUpdate, resourceCustomObjectDelete,
    defer, bind, ret, d_Get_string, d_Get_int, d_HasChange, d_Set, d_SetId, d_Id,
    deref, log_Print, client_CustomObjectCreate,
    client_CustomObjectGetWithContainerAndKey,
    client_CustomObjectDeleteWithContainerAndKey,
    ctMutexKV_Lock, ctMutexKV_Unlock.

Ltac case_answer :=
  match goal with
  | |- context [CustomObjectCreate ?c ?a ?s] =>
      destruct (CustomObjectCreate c a s) as [[? ?] ?]
  | |- context [CustomObjectGetWithContainerAndKey ?c ?a ?b ?s] =>
      destruct (CustomObjectGetWithContainerAndKey c a b s) as [[? ?] ?]
  | |- context [CustomObjectDeleteWithContainerAndKey ?c ?a ?b ?v ?f ?s] =>
      destruct (CustomObjectDeleteWithContainerAndKey c a b v f s) as [[? ?] ?]
  | |- context [match ?x with _ => _ end] => is_var x; destruct x
  end; cbn.

(** Freeing a mutex that was free before it was taken leaves the table as
    it was. *)
Lemma unlock_after_lock (key : string) (h : gset string) :
  key ∉ h -> ({[key]} ∪ h) ∖ {[key]} = h.
Proof.
  intros Hfree. apply set_eq. intros x.
  rewrite elem_of_difference, elem_of_union, elem_of_singleton.
  split.
  - intros [[-> | Hx] Hne]; [contradiction | exact Hx].
  - intros Hx. split; [right; exact Hx |]. intros ->. contradiction.
Qed.

Section Properties.

Context {S : Type}.
Variable client : Client S.
Variable json_parse : string -> option any.
Variable stringFormatObject : CustomObject -> string.

(** C5.  When the fetch of Read reports an error: on a NotFound (status
    404) Read returns no error and the resource identifier is cleared, the
    attributes staying as they were; on any other error Read returns that
    error and leaves the resource data alone. *)
Theorem read_fetch_error (w : World S) (obj : option CustomObject) (e : error) (r : S) :
  CustomObjectGetWithContainerAndKey client
    (attr_container (merged (d w))) (attr_key (merged (d w))) (remote w)
    = ((obj, Some e), r) ->
  let '(out, w') := resourceCustomObjectRead client stringFormatObject w in
  if is_NotFound e
  then out = Ret None /\ Id (d w') = "" /\ merged (d w') = merged (d w)
  else out = Ret (Some e) /\ d w' = d w.
Proof.
  intros Hfetch. unfold_callback. cbn in *. rewrite Hfetch. cbn.
  destruct e as [code msg | msg | msg e']; cbn; auto.
  destruct (Z.eqb code 404); cbn; auto.
Qed.

(** X17.  What Read does when the fetch returns an object: the identifier stays,
    container, key and version take the fetched values, and value takes the
    fetched document only when the string attribute accepts it. *)
Lemma read_found (w : World S) (o : CustomObject) (r : S) :
  CustomObjectGetWithContainerAndKey client
    (attr_container (merged (d w))) (attr_key (merged (d w))) (remote w)
    = ((Some o, None), r) ->
  let '(out, w') := resourceCustomObjectRead client stringFormatObject w in
  out = Ret None /\ Id (d w') = Id (d w) /\
  attr_container (merged (d w')) = Container o /\
  attr_key (merged (d w')) = Key o /\
  attr_version (merged (d w')) = Version o /\
  attr_value (merged (d w'))
    = default (attr_value (merged (d w))) (as_TypeString (Value o)).
Proof.
  intros Hfetch. unfold_callback. cbn in *. rewrite Hfetch. cbn.
  destruct (Value o); cbn; auto 10.
Qed.

(** X18.  What Read does when the fetch returns neither an object nor an error:
    the identifier is cleared. *)
Lemma read_no_object (w : World S) (r : S) :
  CustomObjectGetWithContainerAndKey client
    (attr_container (merged (d w))) (attr_key (merged (d w))) (remote w)
    = ((None, None), r) ->
  let '(out, w') := resourceCustomObjectRead client stringFormatObject w in
  out = Ret None /\ Id (d w') = "" /\ merged (d w') = merged (d w).
Proof.
  intros Hfetch. unfold_callback. cbn in *. rewrite Hfetch. cbn. auto.
Qed.

(** C3.  In an Update that changes the identity, once the create has
    returned an object, whatever the delete call answers: Update returns no
    error, the resource identifier and the version are those of the created
    object, the only remote calls are that create and that delete, and an
    error of the delete shows in the log and nowhere else. *)
Theorem update_rename_swallows_delete_failure
    (w : World S) (o : CustomObject) (r1 : S) :
  identity_changed (d w) = true ->
  CustomObjectCreate client (draft_of json_parse 0 (d w)) (remote w)
    = ((Some o, None), r1) ->
  let c := attr_container (merged (d w)) in
  let k := attr_key (merged (d w)) in
  let '((_, err), r2) :=
    CustomObjectDeleteWithContainerAndKey client c k (Version o) true r1 in
  let '(out, w') := resourceCustomObjectUpdate client json_parse w in
  out = Ret None /\
  Id (d w') = ID o /\
  Get (d w') "version" = AInt (Version o) /\
  remote w' = r2 /\
  events w' =
    events w
    ++ [CallCreate (draft_of json_parse 0 (d w)); CallDelete c k (Version o) true]
    ++ match err with
       | Some _ => [Log "Failed to remove old custom object"]
       | None => []
       end.
Proof.
  unfold identity_changed, draft_of. intros Hchanged Hcreate.
  unfold_callback. cbn in *. rewrite Hchanged. cbn. rewrite Hcreate. cbn.
  destruct (CustomObjectDeleteWithContainerAndKey _ _ _ _ _ _) as [[gone err] r2].
  destruct err; cbn; rewrite <- ?app_assoc; auto 10.
Qed.

(** C4.  Delete fetches first.  When the fetch returns an error, Delete
    returns that error wrapped with the container and key, and no delete
    call is made.  When the fetch returns an object, the delete call gets
    the fetched version and force=false, and its error, if any, is returned
    wrapped with the container and key.  Wrapped means: the message of the
    returned error names the step, the container and the key before the
    message of the cause, and unwrapping it gives the cause. *)
Theorem delete_fetches_then_deletes (w : World S) :
  Id (d w) ∉ held w ->
  let c := attr_container (merged (d w)) in
  let k := attr_key (merged (d w)) in
  let rid := Id (d w) in
  let '((obj, err), r1) := CustomObjectGetWithContainerAndKey client c k (remote w) in
  let '(out, w') := resourceCustomObjectDelete client w in
  (forall e, err = Some e ->
     (exists returned,
        out = Ret (Some returned) /\
        returned = Errorf_could_not_get c k e /\
        Error returned =
          "could not get custom object with container " +:+ c
          +:+ " and key " +:+ k +:+ ": " +:+ Error e /\
        Unwrap returned = Some e) /\
     remote w' = r1 /\
     events w' = events w ++ [MutexLock rid; CallGet c k; MutexUnlock rid]) /\
  (forall o, err = None -> obj = Some o ->
     let '((_, err'), r2) :=
       CustomObjectDeleteWithContainerAndKey client c k (Version o) false r1 in
     match err' with
     | Some e' =>
         exists returned,
           out = Ret (Some returned) /\
           returned = Errorf_could_not_delete c k e' /\
           Error returned =
             "could not delete custom object with container " +:+ c
             +:+ " and key " +:+ k +:+ ": " +:+ Error e' /\
           Unwrap returned = Some e'
     | None => out = Ret None
     end /\
     remote w' = r2 /\
     events w' =
       events w ++ [MutexLock rid; CallGet c k; CallDelete c k (Version o) false;
                    MutexUnlock rid]).
Proof.
  intros Hfree. unfold_callback. cbn in *.
  destruct (decide _) as [Hheld | _]; [contradiction |]. cbn.
  destruct (CustomObjectGetWithContainerAndKey _ _ _ _) as [[obj err] r1]. cbn.
  destruct err as [e |]; cbn.
  - split; [| intros o' [=]].
    intros e' [= <-]. rewrite <- !app_assoc.
    split; [| auto]. eexists. repeat split.
  - destruct obj as [o |]; cbn.
    + destruct (CustomObjectDeleteWithContainerAndKey _ _ _ _ _ _)
        as [[gone err'] r2] eqn:Hdelete.
      destruct err'; cbn;
        (split; [intros e' [=] |]; intros o' _ [= <-]; rewrite Hdelete;
         rewrite <- !app_assoc; split; [| auto]).
      * eexists. repeat split.
      * reflexivity.
    + split; [intros e [=] | intros o' _ [=]].
Qed.

(** C8.  Delete on a resource whose mutex is held waits and does nothing.
    Otherwise it ends (by a return or a panic), its first event is the
    lock of the resource identifier, its last the unlock of the same
    identifier, everything in between is a remote call, and the mutex
    table is afterwards as it was before: the lock is not held. *)
Theorem delete_lock_discipline (w : World S) :
  let rid := Id (d w) in
  let '(out, w') := resourceCustomObjectDelete client w in
  if decide (rid ∈ held w)
  then out = Blocked /\ w' = w
  else out <> Blocked /\
       held w' = held w /\
       exists calls,
         events w' = events w ++ [MutexLock rid] ++ calls ++ [MutexUnlock rid] /\
         forallb is_remote_call calls = true.
Proof.
  unfold_callback. cbn.
  destruct (decide _) as [Hheld | Hfree]; cbn.
  { split; reflexivity. }
  pose proof (unlock_after_lock (id (d w)) (held w) Hfree) as Hset.
  destruct (CustomObjectGetWithContainerAndKey _ _ _ _) as [[obj err] r1]. cbn.
  destruct err as [e |]; cbn.
  { repeat split; [discriminate | exact Hset |].
    eexists [CallGet _ _]. rewrite <- !app_assoc. split; reflexivity. }
  destruct obj as [o |]; cbn.
  2: { repeat split; [discriminate | exact Hset |].
       eexists [CallGet _ _]. rewrite <- !app_assoc. split; reflexivity. }
  destruct (CustomObjectDeleteWithContainerAndKey _ _ _ _ _ _) as [[gone err'] r2].
  destruct err'; cbn;
    (repeat split; [discriminate | exact Hset |];
     eexists [CallGet _ _; CallDelete _ _ _ _]; rewrite <- !app_assoc;
     split; reflexivity).
Qed.

(** C9.  When the fetch of Delete returns neither an object nor an error,
    Delete does not return: it panics on the nil pointer when it reads the
    version, before any delete call.  Read, on the same answer, returns
    without error. *)
Theorem delete_nil_object_panics (w : World S) (r1 : S) :
  Id (d w) ∉ held w ->
  CustomObjectGetWithContainerAndKey client
    (attr_container (merged (d w))) (attr_key (merged (d w))) (remote w)
    = ((None, None), r1) ->
  let '(out, w') := resourceCustomObjectDelete client w in
  out = Panic nil_dereference /\
  remote w' = r1 /\
  events w' = events w ++ [MutexLock (Id (d w));
                           CallGet (attr_container (merged (d w)))
                                   (attr_key (merged (d w)));
                           MutexUnlock (Id (d w))] /\
  fst (resourceCustomObjectRead client stringFormatObject w) = Ret None.
Proof.
  intros Hfree Hfetch. unfold_callback. cbn in *.
  destruct (decide _) as [Hheld | _]; [contradiction |]. cbn.
  rewrite Hfetch. cbn. rewrite <- !app_assoc. auto.
Qed.

(** C6.  A value text that is not well-formed JSON decodes to the empty
    document, and the decoding itself has no error result.  With such a
    value Create and Update do not fail over it: each sends the client a
    draft that holds the empty document, and how it ends is decided by the
    answer to that create call alone.  An error of the call is returned, an
    object makes it return no error (in Update whatever the delete that may
    follow answers), and only the answer with neither makes it panic. *)
Theorem decode_malformed_is_empty (raw : string) :
  json_parse raw = None ->
  _decodeCustomObjectValue json_parse raw = AMap [] /\
  forall w : World S, attr_value (merged (d w)) = raw ->
    (let draft := {| DraftContainer := attr_container (merged (d w));
                     DraftKey := attr_key (merged (d w));
                     DraftValue := AMap [];
                     DraftVersion := 0 |} in
     let '((obj, err), _) := CustomObjectCreate client draft (remote w) in
     fst (resourceCustomObjectCreate client json_parse w) =
       match err, obj with
       | Some e, _ => Ret (Some e)
       | None, Some _ => Ret None
       | None, None => Panic nil_dereference
       end) /\
    (let draft := {| DraftContainer := attr_container (merged (d w));
                     DraftKey := attr_key (merged (d w));
                     DraftValue := AMap [];
                     DraftVersion := update_draft_version (d w) |} in
     let '((obj, err), _) := CustomObjectCreate client draft (remote w) in
     fst (resourceCustomObjectUpdate client json_parse w) =
       match err, obj with
       | Some e, _ => Ret (Some e)
       | None, Some _ => Ret None
       | None, None => Panic nil_dereference
       end).
Proof.
  intros Hbad.
  assert (Hdec : _decodeCustomObjectValue json_parse raw = AMap []).
  { unfold _decodeCustomObjectValue, Unmarshal_map. rewrite Hbad. reflexivity. }
  split; [exact Hdec |].
  intros w Hraw. cbn in Hraw.
  split; unfold update_draft_version, identity_changed; unfold_callback; cbn;
    rewrite Hraw, Hdec.
  - destruct (CustomObjectCreate _ _ _) as [[obj err] r]. cbn.
    destruct err as [e |]; [| destruct obj]; reflexivity.
  - destruct (_ || _); cbn.
    + destruct (CustomObjectCreate _ _ _) as [[obj err] r]. cbn.
      destruct err as [e |]; [| destruct obj]; cbn; try reflexivity.
      destruct (CustomObjectDeleteWithContainerAndKey _ _ _ _ _ _) as [[gone err'] r2].
      destruct err'; reflexivity.
    + destruct (CustomObjectCreate _ _ _) as [[obj err] r]. cbn.
      destruct err as [e |]; [| destruct obj]; reflexivity.
Qed.


End Properties.

(** ** The callbacks on concrete inputs *)

Section Runs.

Import MemStore Scenario MoreScenarios.

(** X19.  In an Update that changes the identity, once the create has returned
    an object, the delete call names the container and the key of the
    draft just created and the version of the created object: lines
    125-127 read the same attributes as lines 112-113, and the version
    that line 121 has just set. *)
Lemma update_rename_deletes_created_identity
    {S : Type} (client : Client S) (json_parse : string -> option any)
    (w : World S) (o : CustomObject) (r1 : S) :
  identity_changed (d w) = true ->
  CustomObjectCreate client (draft_of json_parse 0 (d w)) (remote w)
    = ((Some o, None), r1) ->
  exists logged,
    events (snd (resourceCustomObjectUpdate client json_parse w)) =
      events w
      ++ [CallCreate (draft_of json_parse 0 (d w));
          CallDelete (DraftContainer (draft_of json_parse 0 (d w)))
                     (DraftKey (draft_of json_parse 0 (d w))) (Version o) true]
      ++ logged.
Proof.
  unfold identity_changed, draft_of. intros Hchanged Hcreate.
  unfold_callback. cbn in *. rewrite Hchanged. cbn. rewrite Hcreate. cbn.
  destruct (CustomObjectDeleteWithContainerAndKey _ _ _ _ _ _) as [[gone err] r2].
  destruct err; cbn; rewrite <- ?app_assoc; eexists; cbn; reflexivity.
Qed.

(** C1.  The Update that renames the key from a to b under container c1,
    the object (c1, a) living at version 3: the create is sent for
    (c1, b) without a version, and the delete that follows is sent for
    (c1, b) as well, with version 1 of the object just created, and not
    for (c1, a) with version 3. *)
Theorem update_rename_calls :
  Get (d rename_world) "key" = AString "b" /\
  state (d rename_world) = attrs "c1" "a" text_a1 3 /\
  events (snd (resourceCustomObjectUpdate client JSON.decode rename_world)) =
    [CallCreate {| DraftContainer := "c1"; DraftKey := "b";
                   DraftValue := doc_a1; DraftVersion := 0 |};
     CallDelete "c1" "b" 1 true].
Proof. vm_compute. repeat split; reflexivity. Qed.

(** X20.  On the store of the specification, every Update that changes the
    identity to one that is free, with no transport failure scheduled,
    returns no error and leaves the new identity without an object; every
    other identity keeps what it had. *)
Lemma update_rename_removes_created_object
    (json_parse : string -> option any) (d0 : ResourceData) (s : Store) :
  identity_changed d0 = true ->
  faults s = [] ->
  objects s !! (attr_container (merged d0), attr_key (merged d0)) = None ->
  let '(out, w') := resourceCustomObjectUpdate client json_parse (world d0 s) in
  out = Ret None /\
  objects (remote w') !! (attr_container (merged d0), attr_key (merged d0)) = None /\
  forall i, i <> (attr_container (merged d0), attr_key (merged d0)) ->
            objects (remote w') !! i = objects s !! i.
Proof.
  unfold identity_changed. intros Hchanged Hfaults Hfree.
  unfold_callback. cbn in *. rewrite Hchanged. cbn.
  unfold create, next_fault. cbn. rewrite Hfaults. cbn. rewrite Hfree. cbn.
  unfold remove, next_fault. cbn. rewrite Hfaults. cbn.
  rewrite lookup_insert_eq. cbn.
  repeat split.
  - apply lookup_delete_eq.
  - intros i Hi. rewrite lookup_delete_ne, lookup_insert_ne; congruence.
Qed.

(** C2.  The same Update returns no error, and right after it the store
    holds no object at (c1, b): the forced delete has removed the object
    just created.  The old object (c1, a) is still there, and the resource
    carries the identifier of the removed object. *)
Theorem update_rename_loses_new_object :
  let '(out, w') := resourceCustomObjectUpdate client JSON.decode rename_world in
  out = Ret None /\
  objects (remote w') !! ("c1", "b") = None /\
  objects (remote w') !! ("c1", "a") = Some live_c1_a /\
  Id (d w') = ID created_c1_b.
Proof. vm_compute. repeat split; reflexivity. Qed.

(** When the delete of that Update fails, the new object stays. *)
Example update_rename_failed_delete_keeps_new_object :
  let '(out, w') :=
    resourceCustomObjectUpdate client JSON.decode rename_world_delete_fails in
  out = Ret None /\
  objects (remote w') !! ("c1", "b") = Some created_c1_b /\
  objects (remote w') !! ("c1", "a") = Some live_c1_a.
Proof. vm_compute. repeat split; reflexivity. Qed.

(** C7.  A Read of (c1, a) whose fetch returns the object at version 4
    with the value a = 2: the version becomes 4, container and key are
    those fetched, and the value stays the text with a = 1, because the
    fetched value is a decoded object and the value attribute is a
    string. *)
Theorem read_keeps_stale_value :
  let '(out, w') := resourceCustomObjectRead client formatObject read_world in
  out = Ret None /\
  objects (remote w') !! ("c1", "a") = Some changed_c1_a /\
  Get (d w') "container" = AString "c1" /\
  Get (d w') "key" = AString "a" /\
  Get (d w') "version" = AInt 4 /\
  Get (d w') "value" = AString text_a1 /\
  _decodeCustomObjectValue JSON.decode text_a1 = doc_a1 /\
  Value changed_c1_a = doc_a2.
Proof. vm_compute. repeat split; reflexivity. Qed.

(** The Update whose delete fails in transport: no error is returned, and
    the resource carries the identifier and version of the created
    object. *)
Lemma update_rename_swallows_delete_failure_witness :
  identity_changed (d rename_world_delete_fails) = true /\
  CustomObjectCreate client (draft_of JSON.decode 0 (d rename_world_delete_fails))
    (remote rename_world_delete_fails)
    = ((Some created_c1_b, None), store_after_create) /\
  (let '(out, w') :=
     resourceCustomObjectUpdate client JSON.decode rename_world_delete_fails in
   out = Ret None /\
   Id (d w') = "obj-2" /\
   Get (d w') "version" = AInt 1 /\
   events w' =
     [CallCreate {| DraftContainer := "c1"; DraftKey := "b";
                    DraftValue := doc_a1; DraftVersion := 0 |};
      CallDelete "c1" "b" 1 true;
      Log "Failed to remove old custom object"]).
Proof.
  assert (Hchanged : identity_changed (d rename_world_delete_fails) = true)
    by reflexivity.
  assert (Hcreate :
    CustomObjectCreate client (draft_of JSON.decode 0 (d rename_world_delete_fails))
      (remote rename_world_delete_fails)
      = ((Some created_c1_b, None), store_after_create))
    by (vm_compute; reflexivity).
  split; [exact Hchanged |]. split; [exact Hcreate |].
  pose proof (update_rename_swallows_delete_failure client JSON.decode
                rename_world_delete_fails created_c1_b store_after_create
                Hchanged Hcreate) as H.
  vm_compute in H. vm_compute.
  destruct H as (Hout & Hid & Hversion & _ & Hevents).
  repeat split; assumption.
Defined.

(** Three Deletes of (c1, a): of the live object, where the fetched
    version 3 goes into the delete call with force=false; of an absent
    object, where the 404 of the fetch comes back wrapped; and of the live
    object when the delete call fails, where that failure comes back
    wrapped. *)
Lemma delete_fetches_then_deletes_witness :
  (Id (d delete_world) ∉ held delete_world) /\
  (let '(out, w') := resourceCustomObjectDelete client delete_world in
   out = Ret None /\
   events w' = [MutexLock "obj-1"; CallGet "c1" "a";
                CallDelete "c1" "a" 3 false; MutexUnlock "obj-1"]) /\
  (let '(out, w') := resourceCustomObjectDelete client absent_world in
   (exists returned,
      out = Ret (Some returned) /\
      Error returned
        = "could not get custom object with container c1 and key a: not found" /\
      Unwrap returned = Some not_found) /\
   events w' = [MutexLock "obj-1"; CallGet "c1" "a"; MutexUnlock "obj-1"]) /\
  (let '(out, w') := resourceCustomObjectDelete client delete_world_delete_fails in
   (exists returned,
      out = Ret (Some returned) /\
      Error returned
        = "could not delete custom object with container c1 and key a: connection reset by peer" /\
      Unwrap returned = Some connection_reset) /\
   events w' = [MutexLock "obj-1"; CallGet "c1" "a";
                CallDelete "c1" "a" 3 false; MutexUnlock "obj-1"]).
Proof.
  assert (Hfree : Id (d delete_world) ∉ held delete_world)
    by apply not_elem_of_empty.
  assert (Hfree_absent : Id (d absent_world) ∉ held absent_world)
    by apply not_elem_of_empty.
  assert (Hfree_fails :
    Id (d delete_world_delete_fails) ∉ held delete_world_delete_fails)
    by apply not_elem_of_empty.
  split; [exact Hfree |]. split; [| split].
  - pose proof (delete_fetches_then_deletes client delete_world Hfree) as H.
    vm_compute in H. destruct H as [_ H].
    specialize (H live_c1_a eq_refl eq_refl).
    vm_compute in H. vm_compute.
    destruct H as (Hout & _ & Hevents). split; assumption.
  - pose proof (delete_fetches_then_deletes client absent_world Hfree_absent) as H.
    vm_compute in H. destruct H as [H _].
    specialize (H not_found eq_refl).
    vm_compute in H. vm_compute.
    destruct H as ((returned & Hout & _ & Hmessage & Hunwrap) & _ & Hevents).
    split; [exists returned; repeat split; assumption | exact Hevents].
  - pose proof (delete_fetches_then_deletes client delete_world_delete_fails
                  Hfree_fails) as H.
    vm_compute in H. destruct H as [_ H].
    specialize (H live_c1_a eq_refl eq_refl).
    vm_compute in H. vm_compute.
    destruct H as ((returned & Hout & _ & Hmessage & Hunwrap) & _ & Hevents).
    split; [exists returned; repeat split; assumption | exact Hevents].
Defined.

(** The Read of an identity that has no object in the store. *)
Lemma read_fetch_error_witness :
  CustomObjectGetWithContainerAndKey client
    (attr_container (merged (d absent_world))) (attr_key (merged (d absent_world)))
    (remote absent_world)
    = ((None, Some not_found), store_empty) /\
  (let '(out, w') := resourceCustomObjectRead client formatObject absent_world in
   out = Ret None /\ Id (d w') = "").
Proof.
  assert (Hfetch :
    CustomObjectGetWithContainerAndKey client
      (attr_container (merged (d absent_world))) (attr_key (merged (d absent_world)))
      (remote absent_world)
      = ((None, Some not_found), store_empty))
    by (vm_compute; reflexivity).
  split; [exact Hfetch |].
  pose proof (read_fetch_error client formatObject absent_world
                None not_found store_empty Hfetch) as H.
  vm_compute in H. vm_compute.
  destruct H as (Hout & Hid & _). split; assumption.
Defined.

(** The Delete against a client whose fetch returns a nil object and no
    error. *)
Lemma delete_nil_object_panics_witness :
  (Id (d nil_world) ∉ held nil_world) /\
  CustomObjectGetWithContainerAndKey nil_client
    (attr_container (merged (d nil_world))) (attr_key (merged (d nil_world)))
    (remote nil_world)
    = ((None, None), tt) /\
  (let '(out, w') := resourceCustomObjectDelete nil_client nil_world in
   out = Panic nil_dereference /\
   events w' = [MutexLock "obj-1"; CallGet "c1" "a"; MutexUnlock "obj-1"]).
Proof.
  assert (Hfree : Id (d nil_world) ∉ held nil_world) by apply not_elem_of_empty.
  split; [exact Hfree |]. split; [reflexivity |].
  pose proof (delete_nil_object_panics nil_client formatObject nil_world tt
                Hfree eq_refl) as H.
  vm_compute in H. vm_compute.
  destruct H as (Hout & _ & Hevents & _). split; assumption.
Defined.

(** An unclosed brace is no JSON text: it decodes to the empty document,
    Create sends that document and returns no error, and so does an Update
    of the value of the live (c1, a). *)
Lemma decode_malformed_is_empty_witness :
  JSON.decode "{" = None /\
  _decodeCustomObjectValue JSON.decode "{" = AMap [] /\
  fst (resourceCustomObjectCreate client JSON.decode (fresh "{")) = Ret None /\
  fst (resourceCustomObjectUpdate client JSON.decode malformed_update_world) = Ret None.
Proof.
  assert (Hbad : JSON.decode "{" = None) by (vm_compute; reflexivity).
  split; [exact Hbad |].
  destruct (decode_malformed_is_empty client JSON.decode "{" Hbad) as [Hdec Hruns].
  split; [exact Hdec |].
  split.
  - destruct (Hruns (fresh "{") eq_refl) as [Hcreate _].
    vm_compute in Hcreate. vm_compute. exact Hcreate.
  - destruct (Hruns malformed_update_world eq_refl) as [_ Hupdate].
    vm_compute in Hupdate. vm_compute. exact Hupdate.
Defined.


End Runs.

(** ** Further properties of the callbacks *)

Section Footprints.

Context {S : Type}.
Variable client : Client S.
Variable json_parse : string -> option any.
Variable stringFormatObject : CustomObject -> string.

(** X1.  Create makes one remote call, the create of a draft without a
    version built from the container, the key and the decoded value.  The
    error of that call is returned as it is, with the resource data
    untouched; an object without error gives the resource its identifier
    and version and leaves container, key and value as declared; neither
    of them is a panic on the nil pointer. *)
Theorem create_run (w : World S) :
  let draft := draft_of json_parse 0 (d w) in
  let '((obj, err), r) := CustomObjectCreate client draft (remote w) in
  let '(out, w') := resourceCustomObjectCreate client json_parse w in
  remote w' = r /\
  events w' = events w ++ [CallCreate draft] /\
  held w' = held w /\
  match err, obj with
  | Some e, _ => out = Ret (Some e) /\ d w' = d w
  | None, Some o =>
      out = Ret None /\
      Id (d w') = ID o /\
      merged (d w') =
        {| attr_container := attr_container (merged (d w));
           attr_key := attr_key (merged (d w));
           attr_value := attr_value (merged (d w));
           attr_version := Version o |} /\
      state (d w') = state (d w) /\ planned (d w') = planned (d w)
  | None, None => out = Panic nil_dereference /\ d w' = d w
  end.
Proof.
  unfold draft_of. unfold_callback. cbn.
  destruct (CustomObjectCreate _ _ _) as [[obj err] r]. cbn.
  destruct err as [e |]; [| destruct obj as [o |]]; cbn; auto 10.
Qed.

(** X2.  Update with the identity unchanged makes one remote call, the
    create of a draft that carries the local version; no fetch refreshes
    that version and no delete is sent.  An error is returned as it is
    with the resource data untouched; an object without error gives the
    resource its identifier and version. *)
Theorem update_in_place_run (w : World S) :
  identity_changed (d w) = false ->
  let draft := draft_of json_parse (attr_version (merged (d w))) (d w) in
  let '((obj, err), r) := CustomObjectCreate client draft (remote w) in
  let '(out, w') := resourceCustomObjectUpdate client json_parse w in
  remote w' = r /\
  events w' = events w ++ [CallCreate draft] /\
  match err, obj with
  | Some e, _ => out = Ret (Some e) /\ d w' = d w
  | None, Some o =>
      out = Ret None /\
      Id (d w') = ID o /\
      attr_version (merged (d w')) = Version o
  | None, None => out = Panic nil_dereference /\ d w' = d w
  end.
Proof.
  unfold identity_changed, draft_of. intros Hsame.
  unfold_callback. cbn in *. rewrite Hsame. cbn.
  destruct (CustomObjectCreate _ _ _) as [[obj err] r]. cbn.
  destruct err as [e |]; [| destruct obj as [o |]]; cbn; auto 10.
Qed.

(** X3.  When the create call of Update returns an error, in either
    branch, Update returns that error as it is, sends no delete, and
    leaves the resource data untouched. *)
Theorem update_create_error (w : World S) (obj : option CustomObject) (e : error) (r : S) :
  CustomObjectCreate client
    (draft_of json_parse (update_draft_version (d w)) (d w)) (remote w)
    = ((obj, Some e), r) ->
  let '(out, w') := resourceCustomObjectUpdate client json_parse w in
  out = Ret (Some e) /\
  d w' = d w /\
  remote w' = r /\
  events w' =
    events w ++ [CallCreate (draft_of json_parse (update_draft_version (d w)) (d w))].
Proof.
  unfold update_draft_version, identity_changed, draft_of. intros Hcreate.
  unfold_callback. cbn in *.
  destruct (_ || _); cbn in *; rewrite Hcreate; cbn;
    destruct w as [[? ? ? ?] ? ? ?]; cbn; auto.
Qed.

(** X4.  Read always returns: whatever the client answers it neither
    panics nor waits.  Its one remote call is the fetch by the local
    container and key, it takes no mutex, and it leaves the last known
    state and the planned values alone. *)
Theorem read_footprint (w : World S) :
  let '(out, w') := resourceCustomObjectRead client stringFormatObject w in
  (exists res, out = Ret res) /\
  List.filter is_remote_call (events w') =
    List.filter is_remote_call (events w)
    ++ [CallGet (attr_container (merged (d w))) (attr_key (merged (d w)))] /\
  List.filter is_mutex_event (events w') = List.filter is_mutex_event (events w) /\
  held w' = held w /\
  state (d w') = state (d w) /\ planned (d w') = planned (d w).
Proof.
  unfold_callback. cbn.
  destruct (CustomObjectGetWithContainerAndKey _ _ _ _) as [[obj err] r]. cbn.
  destruct err as [e |]; cbn.
  - destruct e as [code msg | msg | msg e']; cbn;
      [destruct (Z.eqb code 404); cbn | |];
      rewrite !List.filter_app; cbn; rewrite ?app_nil_r; eauto 10.
  - destruct obj as [o |]; cbn.
    + destruct (Value o); cbn;
        rewrite !List.filter_app; cbn; rewrite ?app_nil_r; eauto 10.
    + rewrite !List.filter_app; cbn; rewrite ?app_nil_r; eauto 10.
Qed.

(** X5.  Create and Update take no mutex and never wait: the mutex table
    is as before and no lock or unlock is among their events.  Neither
    sends a fetch. *)
Theorem create_update_take_no_lock (w : World S) :
  (let '(out, w') := resourceCustomObjectCreate client json_parse w in
   out <> Blocked /\ held w' = held w /\
   List.filter is_mutex_event (events w') = List.filter is_mutex_event (events w) /\
   forall c k, CallGet c k ∈ events w' -> CallGet c k ∈ events w) /\
  (let '(out, w') := resourceCustomObjectUpdate client json_parse w in
   out <> Blocked /\ held w' = held w /\
   List.filter is_mutex_event (events w') = List.filter is_mutex_event (events w) /\
   forall c k, CallGet c k ∈ events w' -> CallGet c k ∈ events w).
Proof.
  split; unfold_callback; cbn; try destruct (_ || _); cbn; repeat case_answer;
    rewrite ?List.filter_app; cbn; rewrite ?app_nil_r;
    repeat split; try discriminate;
    intros container key; rewrite ?elem_of_app, ?elem_of_cons, ?elem_of_nil;
    intros Hin; decompose [or] Hin; try assumption; try discriminate;
    try contradiction.
Qed.

(** X6.  Update sends no fetch and at most two remote calls: the create,
    and after it at most one delete.  The delete is sent only when the
    identity has changed, and it is always forced. *)
Theorem update_remote_calls (w : World S) :
  let w' := snd (resourceCustomObjectUpdate client json_parse w) in
  let draft := draft_of json_parse (update_draft_version (d w)) (d w) in
  exists rest,
    List.filter is_remote_call (events w') =
      List.filter is_remote_call (events w) ++ CallCreate draft :: rest /\
    (rest = [] \/
     identity_changed (d w) = true /\
     exists c k v, rest = [CallDelete c k v true]).
Proof.
  unfold update_draft_version, identity_changed, draft_of.
  unfold_callback. cbn.
  destruct (_ || _); cbn; repeat case_answer;
    rewrite ?List.filter_app; cbn; rewrite ?app_nil_r, <- ?app_assoc; cbn;
    eexists; (split; [reflexivity |]);
    first [ left; reflexivity
          | right; split; [reflexivity | eexists _, _, _; reflexivity] ].
Qed.

(** X7.  Delete never changes the resource data: whatever the outcome, the
    identifier and every attribute are afterwards what they were.  It
    sends no create. *)
Theorem delete_leaves_resource_data (w : World S) :
  let w' := snd (resourceCustomObjectDelete client w) in
  d w' = d w /\
  forall draft, CallCreate draft ∈ events w' -> CallCreate draft ∈ events w.
Proof.
  unfold_callback. cbn.
  destruct (decide _); cbn; [auto |].
  repeat case_answer;
    (split; [reflexivity |]);
    intros sent; rewrite ?elem_of_app, ?elem_of_cons, ?elem_of_nil;
    intros Hin; decompose [or] Hin; try assumption; try discriminate;
    try contradiction.
Qed.

(** X8.  Every error that Delete returns wraps the error of the fetch or
    of the delete call: unwrapping it gives that error back, and its
    message is the message of [Errorf] with the container and the key. *)
Theorem delete_errors_are_wrapped (w : World S) (e : error) :
  fst (resourceCustomObjectDelete client w) = Ret (Some e) ->
  let c := attr_container (merged (d w)) in
  let k := attr_key (merged (d w)) in
  exists cause,
    Unwrap e = Some cause /\
    (e = Errorf_could_not_get c k cause \/ e = Errorf_could_not_delete c k cause).
Proof.
  unfold_callback. cbn.
  destruct (decide _); cbn; [discriminate |].
  repeat case_answer; intros [= <-]; eauto.
Qed.

End Footprints.

(** ** The decoded value *)

(** Storing at a key the map does not have appends the pair. *)
Lemma map_store_fresh (k : string) (v : any) (m : list (string * any)) :
  k ∉ m.*1 -> map_store k v m = m ++ [(k, v)].
Proof.
  induction m as [| [k0 v0] m IH]; cbn; [reflexivity |].
  rewrite not_elem_of_cons. intros [Hne Hnotin].
  destruct (String.eqb_spec k k0); [contradiction |]. rewrite IH; auto.
Qed.

Lemma fold_store_distinct (members data : list (string * any)) :
  NoDup (data.*1 ++ members.*1) ->
  fold_left (fun m kv => map_store (fst kv) (snd kv) m) members data = data ++ members.
Proof.
  revert data. induction members as [| [k0 v0] members IH]; intros data Hnodup; cbn.
  - rewrite app_nil_r. reflexivity.
  - cbn in Hnodup.
    assert (Hfresh : k0 ∉ data.*1).
    { apply NoDup_app in Hnodup as (_ & Hdisj & _). intros Hin.
      apply (Hdisj k0 Hin). left. }
    rewrite map_store_fresh by exact Hfresh.
    rewrite IH.
    + rewrite <- app_assoc. reflexivity.
    + rewrite fmap_app. cbn. rewrite <- app_assoc. exact Hnodup.
Qed.

Section DecodedValue.

Variable json_parse : string -> option any.

(** X9.  Whatever the text, the decoded value is a map: the nil map
    exactly when the text is the JSON null, and otherwise a map with
    members (empty or not); it is never a number, a string, a boolean or
    an array. *)
Theorem decode_is_a_map (raw : string) :
  (json_parse raw = Some ANil ->
   _decodeCustomObjectValue json_parse raw = ANilMap) /\
  (json_parse raw <> Some ANil ->
   exists m, _decodeCustomObjectValue json_parse raw = AMap m).
Proof.
  unfold _decodeCustomObjectValue, Unmarshal_map.
  split.
  - intros ->. reflexivity.
  - intros Hnot. destruct (json_parse raw) as [[] |]; cbn; eauto.
    contradiction.
Qed.

(** X11.  For a text that is a JSON object whose member names are all
    different, the decoded map is the members of the text, in their
    order. *)
Theorem decode_object_distinct_members (raw : string) (members : list (string * any)) :
  json_parse raw = Some (AMap members) ->
  NoDup members.*1 ->
  _decodeCustomObjectValue json_parse raw = AMap members.
Proof.
  intros Hparse Hnodup. unfold _decodeCustomObjectValue, Unmarshal_map, make_map.
  rewrite Hparse. f_equal. apply (fold_store_distinct members []). exact Hnodup.
Qed.

End DecodedValue.

(** ** Import, and the callbacks one after another *)

Section Sequences.

Import MemStore Scenario MoreScenarios.

(** X12.  Read of a resource that was imported by its identifier alone
    fetches the empty container and the empty key, whatever the
    identifier: the identifier takes no part in the fetch. *)
Theorem read_after_import_fetches_empty_identity
    {S : Type} (client : Client S) (stringFormatObject : CustomObject -> string)
    (rid : string) (r : S) :
  let w := {| d := ImportStatePassthrough rid; remote := r; held := ∅; events := [] |} in
  List.filter is_remote_call
    (events (snd (resourceCustomObjectRead client stringFormatObject w)))
    = [CallGet "" ""].
Proof.
  unfold_callback. cbn.
  destruct (CustomObjectGetWithContainerAndKey _ _ _ _) as [[obj err] r']. cbn.
  destruct err as [e |]; cbn.
  - destruct e as [code msg | msg | msg e']; cbn;
      [destruct (Z.eqb code 404) | |]; reflexivity.
  - destruct obj as [o |]; cbn; [destruct (Value o) |]; reflexivity.
Qed.

(** X13.  On the store of the specification, with no transport failure
    scheduled and the identity free: Create and then Delete both return
    no error, the store holds again exactly the objects it held before,
    and no mutex is left held. *)
Theorem create_then_delete_restores_store
    (json_parse : string -> option any) (d0 : ResourceData) (s : Store) :
  faults s = [] ->
  objects s !! (attr_container (merged d0), attr_key (merged d0)) = None ->
  let '(out1, w1) := resourceCustomObjectCreate client json_parse (world d0 s) in
  let '(out2, w2) := resourceCustomObjectDelete client w1 in
  out1 = Ret None /\
  out2 = Ret None /\
  objects (remote w2) = objects s /\
  held w2 = ∅.
Proof.
  intros Hfaults Hfree. cbn in Hfree. unfold_callback. cbn.
  unfold create, next_fault. cbn. rewrite Hfaults. cbn. rewrite Hfree. cbn.
  destruct (decide _) as [Hheld | _]; [set_solver |]. cbn.
  unfold fetch, next_fault. cbn. rewrite ?Hfaults. cbn.
  rewrite lookup_insert_eq. cbn.
  unfold remove, next_fault. cbn. rewrite ?Hfaults. cbn.
  rewrite lookup_insert_eq. cbn.
  repeat split.
  - apply delete_insert_id. exact Hfree.
  - apply unlock_after_lock. apply not_elem_of_empty.
Qed.

(** X14.  On the store of the specification, with no transport failure
    scheduled and the identity free: a Read right after Create returns no
    error, keeps the identifier Create has set, reads version 1, and
    leaves container and key as declared.  The value text stays as
    declared too, with one exception: for the text null the store answers
    with nil, which the string attribute takes as the empty text. *)
Theorem create_then_read_keeps_resource
    (json_parse : string -> option any) (stringFormatObject : CustomObject -> string)
    (d0 : ResourceData) (s : Store) :
  faults s = [] ->
  objects s !! (attr_container (merged d0), attr_key (merged d0)) = None ->
  let w1 := snd (resourceCustomObjectCreate client json_parse (world d0 s)) in
  let '(out, w2) := resourceCustomObjectRead client stringFormatObject w1 in
  out = Ret None /\
  Id (d w2) = "obj-" +:+ pretty (next_id s) /\
  merged (d w2) =
    {| attr_container := attr_container (merged d0);
       attr_key := attr_key (merged d0);
       attr_value := match json_parse (attr_value (merged d0)) with
                     | Some ANil => ""
                     | _ => attr_value (merged d0)
                     end;
       attr_version := 1 |} /\
  remote w2 = remote w1.
Proof.
  intros Hfaults Hfree. cbn in Hfree. unfold_callback. cbn.
  unfold create, next_fault. cbn. rewrite Hfaults. cbn. rewrite Hfree. cbn.
  unfold fetch, next_fault. cbn. rewrite ?Hfaults. cbn.
  rewrite lookup_insert_eq. cbn.
  unfold _decodeCustomObjectValue, Unmarshal_map.
  destruct (json_parse _) as [[] |]; cbn; auto.
Qed.

(** X15.  On the store of the specification, with no transport failure
    scheduled: an Update that leaves the identity alone and carries the
    version of the live object, a positive one below the largest Go int,
    returns no error, keeps the identifier of the object, and reads the
    next version; the store then holds the decoded planned value, as it
    crossed the wire, at that version. *)
Theorem update_in_place_bumps_version
    (json_parse : string -> option any) (d0 : ResourceData) (s : Store)
    (live : CustomObject) :
  faults s = [] ->
  identity_changed d0 = false ->
  objects s !! (attr_container (merged d0), attr_key (merged d0)) = Some live ->
  attr_version (merged d0) = Version live ->
  0 < Version live < max_int ->
  let '(out, w') := resourceCustomObjectUpdate client json_parse (world d0 s) in
  out = Ret None /\
  Id (d w') = ID live /\
  attr_version (merged (d w')) = Version live + 1 /\
  (exists o, objects (remote w') !! (attr_container (merged d0), attr_key (merged d0))
               = Some o /\
             Value o = wire (_decodeCustomObjectValue json_parse (attr_value (merged d0))) /\
             Version o = Version live + 1 /\ ID o = ID live).
Proof.
  unfold identity_changed. intros Hfaults Hsame Hlive Hversion Hrange.
  assert (Hfits : fits_int (Version live + 1) = true).
  { unfold fits_int, min_int, max_int in *. apply andb_true_intro.
    split; apply Z.leb_le; lia. }
  unfold_callback. cbn in *. rewrite Hsame. cbn.
  unfold create, next_fault. cbn. rewrite Hfaults. cbn. rewrite Hlive. cbn.
  rewrite Hversion.
  destruct (Z.eqb_spec (Version live) 0) as [Hzero | _]; [lia |].
  rewrite Z.eqb_refl. cbn. unfold answer. cbn. rewrite Hfits. cbn.
  repeat split. eexists. rewrite lookup_insert_eq. repeat split.
Qed.

(** At the largest Go int the same Update returns the decoding error of
    the client, and the resource keeps its identifier and version, though
    the store has taken the write. *)
Lemma update_in_place_at_max_int
    (json_parse : string -> option any) (d0 : ResourceData) (s : Store)
    (live : CustomObject) :
  faults s = [] ->
  identity_changed d0 = false ->
  objects s !! (attr_container (merged d0), attr_key (merged d0)) = Some live ->
  attr_version (merged d0) = Version live ->
  Version live = max_int ->
  let '(out, w') := resourceCustomObjectUpdate client json_parse (world d0 s) in
  out = Ret (Some decode_error) /\ d w' = d0.
Proof.
  unfold identity_changed. intros Hfaults Hsame Hlive Hversion Hmax.
  unfold_callback. cbn in *. rewrite Hsame. cbn.
  unfold create, next_fault. cbn. rewrite Hfaults. cbn. rewrite Hlive. cbn.
  rewrite Hversion, Hmax.
  change (Z.eqb max_int 0) with false. rewrite Z.eqb_refl. cbn.
  unfold answer. cbn. change (fits_int (max_int + 1)) with false. cbn. auto.
Qed.

(** X16.  The same Update with a stale local version, one that is neither
    zero nor the version of the live object, returns the conflict of the
    store, and neither the store nor the resource data changes. *)
Theorem update_in_place_stale_version_conflicts
    (json_parse : string -> option any) (d0 : ResourceData) (s : Store)
    (live : CustomObject) :
  faults s = [] ->
  identity_changed d0 = false ->
  objects s !! (attr_container (merged d0), attr_key (merged d0)) = Some live ->
  attr_version (merged d0) <> Version live ->
  attr_version (merged d0) <> 0 ->
  let '(out, w') := resourceCustomObjectUpdate client json_parse (world d0 s) in
  out = Ret (Some conflict) /\
  objects (remote w') = objects s /\
  d w' = d0.
Proof.
  unfold identity_changed. intros Hfaults Hsame Hlive Hstale Hnonzero.
  unfold_callback. cbn in *. rewrite Hsame. cbn.
  unfold create, next_fault. cbn. rewrite Hfaults. cbn. rewrite Hlive. cbn.
  destruct (Z.eqb_spec (default (attr_version (planned d0)) (set_version (setWriter d0))) 0)
    as [Hzero | _]; [contradiction |].
  destruct (Z.eqb_spec (default (attr_version (planned d0)) (set_version (setWriter d0)))
              (Version live)) as [Heq | _]; [contradiction |].
  cbn. auto.
Qed.

End Sequences.

(** ** Runs of the further properties *)

Section MoreRuns.

Import MemStore Scenario MoreScenarios.

(** The Update of the value alone, against the live object at version 3. *)
Lemma update_in_place_run_witness :
  identity_changed (d revalue_world) = false /\
  (let '(out, w') := resourceCustomObjectUpdate client JSON.decode revalue_world in
   out = Ret None /\
   Id (d w') = "obj-1" /\
   attr_version (merged (d w')) = 4 /\
   events w' = [CallCreate {| DraftContainer := "c1"; DraftKey := "a";
                              DraftValue := doc_a2; DraftVersion := 3 |}]).
Proof.
  assert (Hsame : identity_changed (d revalue_world) = false) by reflexivity.
  split; [exact Hsame |].
  pose proof (update_in_place_run client JSON.decode revalue_world Hsame) as H.
  vm_compute in H. vm_compute.
  destruct H as (_ & Hevents & Hout & Hid & Hversion).
  repeat split; assumption.
Defined.

(** The rename whose create fails in transport. *)
Lemma update_create_error_witness :
  CustomObjectCreate client
    (draft_of JSON.decode (update_draft_version (d rename_world_create_fails))
       (d rename_world_create_fails))
    (remote rename_world_create_fails)
    = ((None, Some connection_reset), store_c1_a []) /\
  (let '(out, w') :=
     resourceCustomObjectUpdate client JSON.decode rename_world_create_fails in
   out = Ret (Some connection_reset) /\
   d w' = renamed /\
   objects (remote w') !! ("c1", "a") = Some live_c1_a).
Proof.
  assert (Hcreate :
    CustomObjectCreate client
      (draft_of JSON.decode (update_draft_version (d rename_world_create_fails))
         (d rename_world_create_fails))
      (remote rename_world_create_fails)
      = ((None, Some connection_reset), store_c1_a []))
    by (vm_compute; reflexivity).
  split; [exact Hcreate |].
  pose proof (update_create_error client JSON.decode rename_world_create_fails
                None connection_reset (store_c1_a []) Hcreate) as H.
  vm_compute in H. vm_compute.
  destruct H as (Hout & Hd & _ & _).
  repeat split; assumption.
Defined.

(** The Delete of an identity that has no object: the 404 of the fetch
    comes back wrapped. *)
Lemma delete_errors_are_wrapped_witness :
  fst (resourceCustomObjectDelete client absent_world)
    = Ret (Some (Errorf_could_not_get "c1" "a" not_found)) /\
  Unwrap (Errorf_could_not_get "c1" "a" not_found) = Some not_found /\
  exists cause,
    Unwrap (Errorf_could_not_get "c1" "a" not_found) = Some cause /\
    (Errorf_could_not_get "c1" "a" not_found
       = Errorf_could_not_get "c1" "a" cause \/
     Errorf_could_not_get "c1" "a" not_found
       = Errorf_could_not_delete "c1" "a" cause).
Proof.
  assert (Hrun : fst (resourceCustomObjectDelete client absent_world)
                 = Ret (Some (Errorf_could_not_get "c1" "a" not_found)))
    by (vm_compute; reflexivity).
  split; [exact Hrun |]. split; [reflexivity |].
  exact (delete_errors_are_wrapped client absent_world _ Hrun).
Defined.

(** The object text with the one member a = 1. *)
Lemma decode_object_distinct_members_witness :
  JSON.decode text_a1 = Some doc_a1 /\
  NoDup [("a", AFloat64 "1")].*1 /\
  _decodeCustomObjectValue JSON.decode text_a1 = doc_a1.
Proof.
  assert (Hparse : JSON.decode text_a1 = Some (AMap [("a", AFloat64 "1")]))
    by (vm_compute; reflexivity).
  assert (Hnodup : NoDup [("a", AFloat64 "1")].*1)
    by (apply NoDup_singleton).
  split; [exact Hparse |]. split; [exact Hnodup |].
  exact (decode_object_distinct_members JSON.decode text_a1 _ Hparse Hnodup).
Defined.

(** Create and then Delete of (c1, a) on the empty store. *)
Lemma create_then_delete_restores_store_witness :
  faults store_empty = [] /\
  objects store_empty !! (attr_container (merged declared), attr_key (merged declared))
    = None /\
  (let '(out1, w1) :=
     resourceCustomObjectCreate client JSON.decode (world declared store_empty) in
   let '(out2, w2) := resourceCustomObjectDelete client w1 in
   out1 = Ret None /\ out2 = Ret None /\ objects (remote w2) = objects store_empty).
Proof.
  assert (Hfree :
    objects store_empty !! (attr_container (merged declared), attr_key (merged declared))
      = None) by (vm_compute; reflexivity).
  split; [reflexivity |]. split; [exact Hfree |].
  pose proof (create_then_delete_restores_store JSON.decode declared store_empty
                eq_refl Hfree) as H.
  vm_compute in H. vm_compute.
  destruct H as (Hout1 & Hout2 & Hobjects & _).
  repeat split; assumption.
Defined.

(** Create and then Read of (c1, a) on the empty store, once with the
    object text a = 1, which Read leaves alone, and once with the text
    null, which Read replaces by the empty text. *)
Lemma create_then_read_keeps_resource_witness :
  faults store_empty = [] /\
  objects store_empty !! (attr_container (merged declared), attr_key (merged declared))
    = None /\
  (let w1 :=
     snd (resourceCustomObjectCreate client JSON.decode (world declared store_empty)) in
   let '(out, w2) := resourceCustomObjectRead client formatObject w1 in
   out = Ret None /\
   Id (d w2) = "obj-1" /\
   merged (d w2) = attrs "c1" "a" text_a1 1) /\
  (let w1 :=
     snd (resourceCustomObjectCreate client JSON.decode
            (world declared_null store_empty)) in
   let '(out, w2) := resourceCustomObjectRead client formatObject w1 in
   out = Ret None /\
   Id (d w2) = "obj-1" /\
   merged (d w2) = attrs "c1" "a" "" 1).
Proof.
  assert (Hfree :
    objects store_empty !! (attr_container (merged declared), attr_key (merged declared))
      = None) by (vm_compute; reflexivity).
  assert (Hfree_null :
    objects store_empty
      !! (attr_container (merged declared_null), attr_key (merged declared_null))
      = None) by (vm_compute; reflexivity).
  split; [reflexivity |]. split; [exact Hfree |]. split.
  - pose proof (create_then_read_keeps_resource JSON.decode formatObject declared
                  store_empty eq_refl Hfree) as H.
    vm_compute in H. vm_compute.
    destruct H as (Hout & Hid & Hmerged & _).
    repeat split; assumption.
  - pose proof (create_then_read_keeps_resource JSON.decode formatObject declared_null
                  store_empty eq_refl Hfree_null) as H.
    vm_compute in H. vm_compute.
    destruct H as (Hout & Hid & Hmerged & _).
    repeat split; assumption.
Defined.

(** The Update of the value alone, with the version of the live object. *)
Lemma update_in_place_bumps_version_witness :
  faults (store_c1_a []) = [] /\
  identity_changed revalued = false /\
  objects (store_c1_a []) !! (attr_container (merged revalued), attr_key (merged revalued))
    = Some live_c1_a /\
  attr_version (merged revalued) = Version live_c1_a /\
  0 < Version live_c1_a < max_int /\
  (let '(out, w') :=
     resourceCustomObjectUpdate client JSON.decode (world revalued (store_c1_a [])) in
   out = Ret None /\
   Id (d w') = "obj-1" /\
   attr_version (merged (d w')) = 4).
Proof.
  assert (Hlive :
    objects (store_c1_a []) !! (attr_container (merged revalued), attr_key (merged revalued))
      = Some live_c1_a) by (vm_compute; reflexivity).
  assert (Hrange : 0 < Version live_c1_a < max_int) by (split; reflexivity).
  split; [reflexivity |]. split; [reflexivity |]. split; [exact Hlive |].
  split; [reflexivity |]. split; [exact Hrange |].
  pose proof (update_in_place_bumps_version JSON.decode revalued (store_c1_a [])
                live_c1_a eq_refl eq_refl Hlive eq_refl Hrange) as H.
  vm_compute in H. vm_compute.
  destruct H as (Hout & Hid & Hversion & _).
  repeat split; assumption.
Defined.

(** The Update of the value alone, with version 2 against the live
    version 3. *)
Lemma update_in_place_stale_version_conflicts_witness :
  faults (store_c1_a []) = [] /\
  identity_changed stale = false /\
  objects (store_c1_a []) !! (attr_container (merged stale), attr_key (merged stale))
    = Some live_c1_a /\
  attr_version (merged stale) <> Version live_c1_a /\
  attr_version (merged stale) <> 0 /\
  (let '(out, w') :=
     resourceCustomObjectUpdate client JSON.decode (world stale (store_c1_a [])) in
   out = Ret (Some conflict) /\
   objects (remote w') !! ("c1", "a") = Some live_c1_a /\
   d w' = stale).
Proof.
  assert (Hlive :
    objects (store_c1_a []) !! (attr_container (merged stale), attr_key (merged stale))
      = Some live_c1_a) by (vm_compute; reflexivity).
  assert (Hstale : attr_version (merged stale) <> Version live_c1_a) by discriminate.
  assert (Hnonzero : attr_version (merged stale) <> 0) by discriminate.
  split; [reflexivity |]. split; [reflexivity |]. split; [exact Hlive |].
  split; [exact Hstale |]. split; [exact Hnonzero |].
  pose proof (update_in_place_stale_version_conflicts JSON.decode stale (store_c1_a [])
                live_c1_a eq_refl eq_refl Hlive Hstale Hnonzero) as H.
  cbv zeta in H.
  destruct (resourceCustomObjectUpdate client JSON.decode (world stale (store_c1_a [])))
    as [out w'].
  destruct H as (Hout & Hobjects & Hd).
  rewrite Hobjects. repeat split; assumption.
Defined.

(** The Read of (c1, a) after it was changed upstream. *)
Lemma read_found_witness :
  CustomObjectGetWithContainerAndKey client
    (attr_container (merged (d read_world))) (attr_key (merged (d read_world)))
    (remote read_world)
    = ((Some changed_c1_a, None), store_changed) /\
  (let '(out, w') := resourceCustomObjectRead client formatObject read_world in
   out = Ret None /\
   Id (d w') = "obj-1" /\
   attr_version (merged (d w')) = 4 /\
   attr_value (merged (d w')) = text_a1).
Proof.
  assert (Hfetch :
    CustomObjectGetWithContainerAndKey client
      (attr_container (merged (d read_world))) (attr_key (merged (d read_world)))
      (remote read_world)
      = ((Some changed_c1_a, None), store_changed))
    by (vm_compute; reflexivity).
  split; [exact Hfetch |].
  pose proof (read_found client formatObject read_world changed_c1_a store_changed
                Hfetch) as H.
  vm_compute in H. vm_compute.
  destruct H as (Hout & Hid & _ & _ & Hversion & Hvalue).
  repeat split; assumption.
Defined.

(** The Read against a client whose fetch returns a nil object and no
    error. *)
Lemma read_no_object_witness :
  CustomObjectGetWithContainerAndKey nil_client
    (attr_container (merged (d nil_world))) (attr_key (merged (d nil_world)))
    (remote nil_world)
    = ((None, None), tt) /\
  (let '(out, w') := resourceCustomObjectRead nil_client formatObject nil_world in
   out = Ret None /\ Id (d w') = "").
Proof.
  split; [reflexivity |].
  pose proof (read_no_object nil_client formatObject nil_world tt eq_refl) as H.
  vm_compute in H. vm_compute.
  destruct H as (Hout & Hid & _). split; assumption.
Defined.

(** The rename from a to b: the delete names (c1, b). *)
Lemma update_rename_deletes_created_identity_witness :
  identity_changed (d rename_world) = true /\
  CustomObjectCreate client (draft_of JSON.decode 0 (d rename_world)) (remote rename_world)
    = ((Some created_c1_b, None),
       {| objects := <[ ("c1", "b") := created_c1_b ]> {[ ("c1", "a") := live_c1_a ]};
          next_id := 3; faults := [] |}) /\
  exists logged,
    events (snd (resourceCustomObjectUpdate client JSON.decode rename_world)) =
      events rename_world
      ++ [CallCreate (draft_of JSON.decode 0 (d rename_world));
          CallDelete (DraftContainer (draft_of JSON.decode 0 (d rename_world)))
                     (DraftKey (draft_of JSON.decode 0 (d rename_world)))
                     (Version created_c1_b) true]
      ++ logged.
Proof.
  assert (Hcreate :
    CustomObjectCreate client (draft_of JSON.decode 0 (d rename_world))
      (remote rename_world)
      = ((Some created_c1_b, None),
         {| objects := <[ ("c1", "b") := created_c1_b ]> {[ ("c1", "a") := live_c1_a ]};
            next_id := 3; faults := [] |}))
    by (vm_compute; reflexivity).
  split; [reflexivity |]. split; [exact Hcreate |].
  exact (update_rename_deletes_created_identity client JSON.decode rename_world
           created_c1_b _ eq_refl Hcreate).
Defined.

(** The rename from a to b: (c1, b) is free before and empty after. *)
Lemma update_rename_removes_created_object_witness :
  identity_changed renamed = true /\
  faults (store_c1_a []) = [] /\
  objects (store_c1_a []) !! (attr_container (merged renamed), attr_key (merged renamed))
    = None /\
  (let '(out, w') :=
     resourceCustomObjectUpdate client JSON.decode (world renamed (store_c1_a [])) in
   out = Ret None /\
   objects (remote w') !! ("c1", "b") = None).
Proof.
  assert (Hfree :
    objects (store_c1_a []) !! (attr_container (merged renamed), attr_key (merged renamed))
      = None) by (vm_compute; reflexivity).
  split; [reflexivity |]. split; [reflexivity |]. split; [exact Hfree |].
  pose proof (update_rename_removes_created_object JSON.decode renamed (store_c1_a [])
                eq_refl eq_refl Hfree) as H.
  vm_compute in H. vm_compute.
  destruct H as (Hout & Hgone & _). split; assumption.
Defined.

End MoreRuns.
